(** * Stock.py: the FinancialAdvisorBot class, embedded and verified

    The development follows [src/financial with faheem/Stock.py].  The class
    [FinancialAdvisorBot] keeps two pieces of state (the expense table and the
    retirement plan) and talks to three outside services (Alpha Vantage over
    [requests], Yahoo Finance over [yfinance], OpenAI's chat completion).

    Modelling choices, all of them visible in the definitions below:
    - A Python [int] is a [Z]; a Python [float] is a binary64 number, Rocq's
      primitive [float], with the rounding of every operation, the
      infinities, the two zeros and NaN.
    - A method is a computation in the monad [M]: it reads and writes the
      bot's state, appends to a log of outside effects (service calls and
      [st.error] notices) and either returns a value or raises a Python
      exception.
    - What surrounds the bot is collected in the record [Gateways]: the three
      services, whose answers are arbitrary, and two numerical routines of
      libraries whose rounding is not fixed by their interface, the C
      library's [pow] and the sum pandas computes for a group. *)

From Stdlib Require Import QArith Qround ZArith String Ascii List.
From Stdlib Require Import OrderedTypeEx Sorted DecimalString Lia.
From Stdlib Require Import Floats.
From stdpp Require Import gmap strings.
Import ListNotations.

#[local] Set Warnings "-inexact-float".

Local Open Scope string_scope.
Local Open Scope list_scope.

(** ** Python values and exceptions *)

(** An exception is its class name and [str(e)]. *)
Record exn := Exn { exn_class : string; exn_str : string }.

Inductive outcome (A : Type) : Type :=
| Return (a : A)
| Raise (e : exn).
Arguments Return {A} a.
Arguments Raise {A} e.

(** The values that occur in the dictionaries of the program. *)
Inductive pyval :=
| PyNone
| PyInt (z : Z)
| PyFloat (x : float)
| PyStr (s : string).

(** [type(v).__name__] *)
Definition type_name (v : pyval) : string :=
  match v with
  | PyNone => "NoneType"
  | PyInt _ => "int"
  | PyFloat _ => "float"
  | PyStr _ => "str"
  end.

(** [bool(v)], the test of [if v:]; a float is false when it equals zero,
    so NaN is true. *)
Definition truthy (v : pyval) : bool :=
  match v with
  | PyNone => false
  | PyInt z => negb (Z.eqb z 0)
  | PyFloat x => negb (x =? 0)%float
  | PyStr s => negb (String.eqb s "")
  end.

Definition TypeError (msg : string) : exn := Exn "TypeError" msg.
Definition KeyError (key : string) : exn := Exn "KeyError" ("'" ++ key ++ "'").
Definition IndexError (msg : string) : exn := Exn "IndexError" msg.
Definition ZeroDivisionError (msg : string) : exn := Exn "ZeroDivisionError" msg.
Definition OverflowError (msg : string) : exn := Exn "OverflowError" msg.

Definition unsupported_operand (op : string) (l r : string) : exn :=
  TypeError ("unsupported operand type(s) for " ++ op ++ ": '" ++ l ++ "' and '" ++ r ++ "'").

(** ** Floats and ints *)

(** The float nearest to an int, ties to even. *)
Definition float_of_Z (z : Z) : float := SF2Prim (binary_normalize prec emax z 0 false).

(** [float(z)] as the operators apply it to an int operand: an int beyond
    the range of the floats is refused. *)
Definition int_to_float (z : Z) : exn + float :=
  let x := float_of_Z z in
  if is_infinity x then inl (OverflowError "int too large to convert to float") else inr x.

(** The rational number a finite float stands for (0 for the others). *)
Definition exact_value (x : float) : Q :=
  match Prim2SF x with
  | S754_finite s m e =>
      let n := if s then Zneg m else Zpos m in
      match e with
      | Z0 => inject_Z n
      | Zpos k => inject_Z (n * Z.pow_pos 2 k)
      | Zneg k => n # Pos.pow 2 k
      end
  | _ => 0%Q
  end.

(** The float is an odd integer: [fmod(fabs(x), 2.0) == 1.0]. *)
Definition is_odd_integer (x : float) : bool :=
  match Prim2SF x with
  | S754_finite _ m e =>
      match e with
      | Z0 => Z.odd (Zpos m)
      | Zpos _ => false
      | Zneg k => (Zpos m mod Z.pow_pos 2 k =? 0)%Z && Z.odd (Zpos m / Z.pow_pos 2 k)
      end
  | _ => false
  end.

(** [iv ** w] for a float [iv] and an int [w], as the float type computes
    it: the int is converted, the special cases are settled case by case,
    and the remaining ones are handed to the C library's [pow], given here
    as [pow]; a result of [pow] that is infinite is a range error.  The tests
    on the sign of the exponent and on its being zero are made on the int,
    whose conversion keeps both. *)
Definition float_pow (pow : float -> float -> float) (iv : float) (w : Z) : exn + float :=
  match int_to_float w with
  | inl e => inl e
  | inr iw =>
      if (w =? 0)%Z then inr 1%float
      else if is_nan iv then inr iv
      else if is_infinity iv then
        inr (if (0 <? w)%Z
             then (if is_odd_integer iw then iv else abs iv)
             else (if is_odd_integer iw
                   then (if get_sign iv then (-0)%float else 0%float)
                   else 0%float))
      else if (iv =? 0)%float then
        if (w <? 0)%Z
        then inl (ZeroDivisionError "0.0 cannot be raised to a negative power")
        else inr (if is_odd_integer iw then iv else 0%float)
      else
        let negate_result := (iv <? 0)%float && is_odd_integer iw in
        if (abs iv =? 1)%float then inr (if negate_result then (-1)%float else 1%float)
        else
          let ix := pow (abs iv) iw in
          if is_infinity ix
          then inl (OverflowError "(34, 'Numerical result out of range')")
          else inr (if negate_result then (- ix)%float else ix)
  end.

(** ** Data of the bot *)

(** A row of the [expenses] table, columns ["Date"], ["Category"], ["Amount"]. *)
Record Expense := {
  Date : string;
  Category : string;
  Amount : float
}.

(** The dictionary [retirement_plan]; its five keys are always present and
    hold [None] until [set_retirement_plan] stores a value. *)
Record RetirementPlan := {
  current_age : option Z;
  retirement_age : option Z;
  current_savings : option float;
  monthly_contribution : option float;
  savings_goal : option float
}.

Record Bot := {
  expenses : list Expense;
  retirement_plan : RetirementPlan
}.

(** ** The outside world *)

Record message := { role : string; content : string }.

Record choice := { choice_message : message }.

(** The object returned by [openai.ChatCompletion.create]: [response["choices"]]. *)
Record chat_response := { choices : list choice }.

(** What the Alpha Vantage request amounts to inside [get_current_inflation]:
    one of the calls [requests.get], [response.json()], the indexing
    [data['data'][0]['value']] or [float(...)] raises; or the JSON body has
    no ['data'] key; or [float(data['data'][0]['value'])] is a number. *)
Inductive inflation_response :=
| InflationRaises (e : exn)
| InflationNoData
| InflationValue (rate : float).

Record Gateways := {
  ALPHA_VANTAGE_API_KEY : option string;
  (** [requests.get(url)] and the decoding of its body *)
  alpha_vantage : string -> inflation_response;
  (** [yf.Ticker(ticker).info]: raises, or is a dictionary *)
  yf_info : string -> exn + gmap string pyval;
  (** [openai.ChatCompletion.create(model=..., messages=...)] *)
  chat_completion : string -> list message -> exn + chat_response;
  (** [pow] of the C library, which [**] calls on two floats *)
  libm_pow : float -> float -> float;
  (** the sum pandas computes from the values of one group, taken in table
      order: compensated summation on a float column, plain additions on an
      object column, and which of the two the column is depends on the
      version of pandas *)
  group_sum : list float -> float
}.

(** What the bot does to the outside, in order. *)
Inductive event :=
| EvRequestsGet (url : string)
| EvTickerInfo (ticker : string)
| EvChatCompletion (model : string) (messages : list message)
| EvStError (msg : string).

(** ** The monad of methods: state of the bot, log of events, exceptions *)

Definition M (A : Type) : Type := Bot -> outcome A * Bot * list event.

Definition ret {A} (a : A) : M A := fun self => (Return a, self, []).

Definition raise {A} (e : exn) : M A := fun self => (Raise e, self, []).

Definition bind {A B} (m : M A) (f : A -> M B) : M B :=
  fun self =>
    match m self with
    | (Return a, self1, log1) =>
        match f a self1 with
        | (r, self2, log2) => (r, self2, log1 ++ log2)
        end
    | (Raise e, self1, log1) => (Raise e, self1, log1)
    end.

(** [try: m except Exception as e: handler e] *)
Definition try_except {A} (m : M A) (handler : exn -> M A) : M A :=
  fun self =>
    match m self with
    | (Return a, self1, log1) => (Return a, self1, log1)
    | (Raise e, self1, log1) =>
        match handler e self1 with
        | (r, self2, log2) => (r, self2, log1 ++ log2)
        end
    end.

Definition emit (ev : event) : M unit := fun self => (Return tt, self, [ev]).

Definition get_self : M Bot := fun self => (Return self, self, []).

Definition put_self (new : Bot) : M unit := fun _ => (Return tt, new, []).

Definition lift_sum {A} (r : exn + A) : M A :=
  match r with
  | inl e => raise e
  | inr a => ret a
  end.

Declare Scope py_scope.
Delimit Scope py_scope with py.
Notation "x <- m ;; k" := (bind m (fun x => k))
  (at level 20, m at level 99, k at level 200, only parsing) : py_scope.
Notation "m ;;; k" := (bind m (fun _ => k))
  (at level 100, k at level 200, right associativity, only parsing) : py_scope.
Local Open Scope py_scope.

Definition result_of {A} (r : outcome A * Bot * list event) : outcome A := fst (fst r).
Definition state_of {A} (r : outcome A * Bot * list event) : Bot := snd (fst r).
Definition log_of {A} (r : outcome A * Bot * list event) : list event := snd r.

(** [st.error(msg)] *)
Definition st_error (msg : string) : M unit := emit (EvStError msg).

(** ** Arithmetic of the retirement projection *)

(** [x or 0] for the result of [get_current_inflation]: [None] and a float
    equal to zero are falsy and give the int [0], written here as the float
    [0], which divides and prints the same. *)
Definition or_zero (x : option float) : float :=
  match x with
  | Some r => if (r =? 0)%float then 0%float else r
  | None => 0%float
  end.

Definition age_type (x : option Z) : string :=
  match x with Some z => type_name (PyInt z) | None => type_name PyNone end.

(** [a - b] on two plan entries that are integers or [None]. *)
Definition py_sub (a b : option Z) : M Z :=
  match a, b with
  | Some x, Some y => ret (x - y)%Z
  | _, _ => raise (unsupported_operand "-" (age_type a) (age_type b))
  end.

(** [base ** e], a float to an integer power. *)
Definition py_pow (pow : float -> float -> float) (base : float) (e : Z) : M float :=
  lift_sum (float_pow pow base e).

(** [goal * factor], the goal a float or [None], the factor a float. *)
Definition py_mul (goal : option float) (factor : float) : M float :=
  match goal with
  | Some g => ret (g * factor)%float
  | None => raise (unsupported_operand "*" (type_name PyNone) "float")
  end.

(** The dictionary returned by [project_retirement_savings]. *)
Record Projection := {
  inflation_rate : float;
  adjusted_goal : float;
  years_to_retirement : Z
}.

(** ** Formatting a float with [:.2f] *)

(** Round to the nearest integer, ties to the even one. *)
Definition round_half_even (x : Q) : Z :=
  let fl := Qfloor x in
  match Qcompare (x - inject_Z fl) (1 # 2) with
  | Lt => fl
  | Gt => (fl + 1)%Z
  | Eq => if Z.even fl then fl else (fl + 1)%Z
  end.

Definition decimal (n : Z) : string := NilZero.string_of_uint (N.to_uint (Z.to_N n)).

Definition two_digits (n : Z) : string :=
  if (n <? 10)%Z then "0" ++ decimal n else decimal n.

(** [f"{x:.2f}"]: the exact value of the float, rounded to two decimals. *)
Definition format_2f (x : float) : string :=
  match Prim2SF x with
  | S754_nan => "nan"
  | S754_infinity s => (if s then "-" else "") ++ "inf"
  | S754_zero s => (if s then "-" else "") ++ "0.00"
  | S754_finite s _ _ =>
      let n := Z.abs (round_half_even (exact_value x * 100)) in
      (if s then "-" else "") ++ decimal (n / 100) ++ "." ++ two_digits (n mod 100)
  end.

(** ** Grouping the expense table *)

(** [df.groupby("Category")["Amount"]]: the groups are kept in increasing
    order of their key; each row hands its amount, in table order, to the
    group of its category. *)
Fixpoint upsert (c : string) (a : float) (acc : list (string * list float))
  : list (string * list float) :=
  match acc with
  | [] => [(c, [a])]
  | (k, vs) :: rest =>
      match String.compare c k with
      | Eq => (k, vs ++ [a]) :: rest
      | Lt => (c, [a]) :: (k, vs) :: rest
      | Gt => (k, vs) :: upsert c a rest
      end
  end.

Definition groups (df : list Expense) : list (string * list float) :=
  fold_left (fun acc row => upsert (Category row) (Amount row) acc) df [].

(** [.sum()] on the groups: one row per group, the key and the sum of its
    values. *)
Definition groupby_sum (sum : list float -> float) (df : list Expense)
  : list (string * float) :=
  map (fun kv => (fst kv, sum (snd kv))) (groups df).

(** The amounts recorded under category [c], in table order. *)
Definition category_values (c : string) (df : list Expense) : list float :=
  map Amount (List.filter (fun row => String.eqb (Category row) c) df).

(** The sum of a list of floats by binary64 additions from the left,
    starting at [0]. *)
Definition sum_amounts (l : list float) : float := fold_left PrimFloat.add l 0%float.

(** ** Stock suggestions: dictionaries and rows *)

(** The inner dictionary stored under a ticker in [stock_data]. *)
Record StockRow := {
  Name : pyval;
  Current_Price : pyval;
  Market_Cap : pyval;
  Week52_High : pyval;
  Week52_Low : pyval
}.

(** A row of the returned table: index, the five columns, and the column
    ["Suggested Investment"]. *)
Record SuggestionRow := {
  Ticker : string;
  Quote : StockRow;
  Suggested_Investment : float
}.

(** [info.get(key, None)] *)
Definition dict_get (info : gmap string pyval) (key : string) : pyval :=
  match info !! key with
  | Some v => v
  | None => PyNone
  end.

(** [info[key]] *)
Definition getitem (info : gmap string pyval) (key : string) : M pyval :=
  match info !! key with
  | Some v => ret v
  | None => raise (KeyError key)
  end.

(** [stock_data[ticker] = row] on an insertion-ordered dictionary. *)
Fixpoint dict_set (d : list (string * StockRow)) (ticker : string) (row : StockRow)
  : list (string * StockRow) :=
  match d with
  | [] => [(ticker, row)]
  | (k, v) :: rest =>
      if String.eqb k ticker then (k, row) :: rest else (k, v) :: dict_set rest ticker row
  end.

(** ** The class *)

Module FinancialAdvisorBot.

(** [__init__] *)
Definition init : Bot := {|
  expenses := [];
  retirement_plan := {|
    current_age := None;
    retirement_age := None;
    current_savings := None;
    monthly_contribution := None;
    savings_goal := None
  |}
|}.

Definition inflation_url (gw : Gateways) : string :=
  "https://www.alphavantage.co/query?function=INFLATION&apikey="
    ++ match ALPHA_VANTAGE_API_KEY gw with Some k => k | None => "None" end.

Definition get_current_inflation (gw : Gateways) : M (option float) :=
  try_except
    (emit (EvRequestsGet (inflation_url gw)) ;;;
     match alpha_vantage gw (inflation_url gw) with
     | InflationRaises e => raise e
     | InflationValue rate => ret (Some rate)
     | InflationNoData =>
         st_error "Unable to fetch inflation data." ;;;
         ret None
     end)
    (fun e =>
       st_error ("Error fetching inflation data: " ++ exn_str e) ;;;
       ret None).

Definition add_expense (date category : string) (amount : float) : M unit :=
  self <- get_self ;;
  let new_expense := {| Date := date; Category := category; Amount := amount |} in
  put_self {| expenses := expenses self ++ [new_expense];
              retirement_plan := retirement_plan self |}.

Definition get_expense_summary (gw : Gateways) : M (list (string * float)) :=
  self <- get_self ;;
  ret (groupby_sum (group_sum gw) (expenses self)).

Definition set_retirement_plan
    (current_age retirement_age : option Z)
    (current_savings monthly_contribution savings_goal : option float) : M unit :=
  self <- get_self ;;
  put_self {| expenses := expenses self;
              retirement_plan := {|
                current_age := current_age;
                retirement_age := retirement_age;
                current_savings := current_savings;
                monthly_contribution := monthly_contribution;
                savings_goal := savings_goal
              |} |}.

Definition project_retirement_savings (gw : Gateways) : M Projection :=
  fetched <- get_current_inflation gw ;;
  let inflation_rate := or_zero fetched in
  self <- get_self ;;
  years_to_retirement <-
    py_sub (retirement_age (retirement_plan self)) (current_age (retirement_plan self)) ;;
  growth <- py_pow (libm_pow gw) (1 + inflation_rate / 100)%float years_to_retirement ;;
  adjusted_goal <- py_mul (savings_goal (retirement_plan self)) growth ;;
  ret {| inflation_rate := inflation_rate;
         adjusted_goal := adjusted_goal;
         years_to_retirement := years_to_retirement |}.

Definition stock_tickers : list string := ["AAPL"; "MSFT"; "GOOGL"; "AMZN"; "TSLA"].

(** The body of [for ticker in stock_tickers: ...], over the tickers that
    remain, with the dictionary [stock_data] built so far. *)
Fixpoint fetch_quotes (gw : Gateways) (tickers : list string)
    (stock_data : list (string * StockRow)) : M (list (string * StockRow)) :=
  match tickers with
  | [] => ret stock_data
  | ticker :: rest =>
      emit (EvTickerInfo ticker) ;;;
      info <- lift_sum (yf_info gw ticker) ;;
      let price := dict_get info "currentPrice" in
      if truthy price then
        name <- getitem info "shortName" ;;
        cap <- getitem info "marketCap" ;;
        high <- getitem info "fiftyTwoWeekHigh" ;;
        low <- getitem info "fiftyTwoWeekLow" ;;
        fetch_quotes gw rest
          (dict_set stock_data ticker
             {| Name := name; Current_Price := price; Market_Cap := cap;
                Week52_High := high; Week52_Low := low |})
      else fetch_quotes gw rest stock_data
  end.

(** [pd.DataFrame.from_dict(stock_data, orient="index")] followed by the
    assignment of one value to the new column. *)
Definition with_suggested (stock_data : list (string * StockRow)) (value : float)
  : list SuggestionRow :=
  map (fun kv => {| Ticker := fst kv; Quote := snd kv; Suggested_Investment := value |})
      stock_data.

Definition suggest_stocks (gw : Gateways) (investment_amount : float) (years : Z)
  : M (option (list SuggestionRow)) :=
  try_except
    (stock_data <- fetch_quotes gw stock_tickers [] ;;
     ret (Some (with_suggested stock_data
                  (investment_amount
                   / float_of_Z (Z.of_nat (length stock_tickers)))%float)))
    (fun e =>
       st_error ("Error fetching stock data: " ++ exn_str e) ;;;
       ret None).

Definition inflation_context (fetched : option float) : string :=
  match fetched with
  | Some rate =>
      "The current annual inflation rate is " ++ format_2f rate
        ++ "%. Please consider this in your calculations."
  | None =>
      "I couldn't retrieve the current inflation rate. Proceed without inflation adjustment."
  end.

Definition advice_messages (fetched : option float) (prompt : string) : list message :=
  [ {| role := "system"; content := "You are a financial advisor bot." |};
    {| role := "assistant"; content := inflation_context fetched |};
    {| role := "user"; content := prompt |} ].

Definition generate_financial_advice (gw : Gateways) (prompt : string) : M string :=
  fetched <- get_current_inflation gw ;;
  let messages := advice_messages fetched prompt in
  emit (EvChatCompletion "gpt-4" messages) ;;;
  response <- lift_sum (chat_completion gw "gpt-4" messages) ;;
  first <- match choices response with
           | c :: _ => ret c
           | [] => raise (IndexError "list index out of range")
           end ;;
  ret (content (choice_message first)).

End FinancialAdvisorBot.

Import FinancialAdvisorBot.

(** The order in which [groupby] arranges the category names. *)
Abbreviation str_lt := String_as_OT.lt.

(** ** Running a sequence of calls *)

(** The calls [add_expense(date, category, amount)], one after the other. *)
Fixpoint add_all (calls : list (string * string * float)) : M unit :=
  match calls with
  | [] => ret tt
  | (date, category, amount) :: rest =>
      add_expense date category amount ;;; add_all rest
  end.

Definition expense_of_call (call : string * string * float) : Expense :=
  {| Date := fst (fst call); Category := snd (fst call); Amount := snd call |}.

(** ** What one turn of the loop of [suggest_stocks] does with a ticker *)

(** The dictionary literal built for a ticker that has a price: the four
    subscripts are evaluated in the order they are written. *)
Definition row_of (info : gmap string pyval) : exn + StockRow :=
  match info !! "shortName" with
  | None => inl (KeyError "shortName")
  | Some name =>
      match info !! "marketCap" with
      | None => inl (KeyError "marketCap")
      | Some cap =>
          match info !! "fiftyTwoWeekHigh" with
          | None => inl (KeyError "fiftyTwoWeekHigh")
          | Some high =>
              match info !! "fiftyTwoWeekLow" with
              | None => inl (KeyError "fiftyTwoWeekLow")
              | Some low =>
                  inr {| Name := name;
                         Current_Price := dict_get info "currentPrice";
                         Market_Cap := cap;
                         Week52_High := high;
                         Week52_Low := low |}
              end
          end
      end
  end.

Inductive verdict :=
| Omitted
| Kept (row : StockRow)
| Aborted (e : exn).

Definition verdict_of (gw : Gateways) (ticker : string) : verdict :=
  match yf_info gw ticker with
  | inl e => Aborted e
  | inr info =>
      if truthy (dict_get info "currentPrice")
      then match row_of info with
           | inl e => Aborted e
           | inr row => Kept row
           end
      else Omitted
  end.

Definition kept_rows (gw : Gateways) (tickers : list string) : list (string * StockRow) :=
  flat_map (fun t => match verdict_of gw t with Kept row => [(t, row)] | _ => [] end) tickers.

Arguments kept_rows : simpl never.
Arguments stock_tickers : simpl never.

(** The quote has a current price: under ["currentPrice"] there is a number
    other than zero (or a string other than the empty one).  No entry,
    [None], and a zero are no price. *)
Definition priced (info : gmap string pyval) : Prop :=
  match info !! "currentPrice" with
  | Some (PyInt z) => z <> 0%Z
  | Some (PyFloat x) => (x =? 0)%float = false
  | Some (PyStr s) => s <> ""
  | Some PyNone => False
  | None => False
  end.

(** The quote carries the four other fields the row needs. *)
Definition has_other_fields (info : gmap string pyval) : Prop :=
  is_Some (info !! "shortName") /\ is_Some (info !! "marketCap") /\
  is_Some (info !! "fiftyTwoWeekHigh") /\ is_Some (info !! "fiftyTwoWeekLow").

(** The fetch of [ticker] answers with a dictionary, and one that has the
    other fields whenever it has a price. *)
Definition well_formed_quote (gw : Gateways) (ticker : string) : Prop :=
  exists info, yf_info gw ticker = inr info /\ (priced info -> has_other_fields info).

(** A row of the result shows the fields of the quote of its own ticker. *)
Definition row_matches_quote (gw : Gateways) (row : SuggestionRow) : Prop :=
  exists info, yf_info gw (Ticker row) = inr info /\
    info !! "currentPrice" = Some (Current_Price (Quote row)) /\
    info !! "shortName" = Some (Name (Quote row)) /\
    info !! "marketCap" = Some (Market_Cap (Quote row)) /\
    info !! "fiftyTwoWeekHigh" = Some (Week52_High (Quote row)) /\
    info !! "fiftyTwoWeekLow" = Some (Week52_Low (Quote row)).

(** The fetch of [ticker] ends the loop of [suggest_stocks]: the request
    raises, or the quote has a price and lacks one of the other fields. *)
Definition quote_aborts (gw : Gateways) (ticker : string) : Prop :=
  match yf_info gw ticker with
  | inl _ => True
  | inr info => truthy (dict_get info "currentPrice") = true /\ ~ has_other_fields info
  end.

(** ** What [get_current_inflation] hands back, and what it logs *)

Definition fetched_rate (gw : Gateways) : option float :=
  match alpha_vantage gw (inflation_url gw) with
  | InflationValue rate => Some rate
  | _ => None
  end.

Definition inflation_log (gw : Gateways) : list event :=
  EvRequestsGet (inflation_url gw) ::
  match alpha_vantage gw (inflation_url gw) with
  | InflationValue _ => []
  | InflationNoData => [EvStError "Unable to fetch inflation data."]
  | InflationRaises e => [EvStError ("Error fetching inflation data: " ++ exn_str e)]
  end.

(** A call ends with an exception of class [cls]. *)
Definition fails_with {A} (cls : string) (r : outcome A * Bot * list event) : Prop :=
  exists e, result_of r = Raise e /\ exn_class e = cls.

(** ** Sample surroundings and bots *)

(** The sum of a group as pandas computes it on a float column: NaN is
    skipped, and the additions carry a compensation term. *)
Fixpoint compensated_sum (values : list float) (sumx compensation : float) : float :=
  match values with
  | [] => sumx
  | val :: rest =>
      if is_nan val then compensated_sum rest sumx compensation
      else
        let y := (val - compensation)%float in
        let t := (sumx + y)%float in
        let c := (t - sumx - y)%float in
        compensated_sum rest t (if is_nan c then 0%float else c)
  end.

Definition float64_sum (values : list float) : float := compensated_sum values 0 0.

(** The sum of a group as pandas computes it on an object column: NaN is
    skipped, the first value is taken as it is, the others are added to it
    one by one. *)
Definition object_sum (values : list float) : float :=
  match List.filter (fun val => negb (is_nan val)) values with
  | [] => 0%float
  | first :: rest => fold_left PrimFloat.add rest first
  end.

(** The integer a float with an integral value stands for. *)
Definition integral_value (x : float) : Z :=
  match Prim2SF x with
  | S754_finite s m e =>
      let n := match e with
               | Z0 => Zpos m
               | Zpos k => (Zpos m * Z.pow_pos 2 k)%Z
               | Zneg k => (Zpos m / Z.pow_pos 2 k)%Z
               end in
      if s then (- n)%Z else n
  | _ => 0%Z
  end.

Fixpoint repeated_product (x : float) (n : nat) : float :=
  match n with
  | O => 1%float
  | S k => (repeated_product x k * x)%float
  end.

(** A stand-in for the C library's [pow] on an integral exponent: the
    product of that many factors, rounded at each step, and its inverse for
    a negative exponent. *)
Definition sample_pow (x y : float) : float :=
  let n := integral_value y in
  if (n <? 0)%Z then (1 / repeated_product x (Z.to_nat (- n)))%float
  else repeated_product x (Z.to_nat n).

Definition quote (name : string) (price : float) : gmap string pyval :=
  <["currentPrice" := PyFloat price]>
    (<["shortName" := PyStr name]>
       (<["marketCap" := PyInt 2500000000000]>
          (<["fiftyTwoWeekHigh" := PyFloat (price + 20)%float]>
             (<["fiftyTwoWeekLow" := PyFloat (price - 20)%float]> ∅)))).

Definition reply (text : string) : chat_response :=
  {| choices := [ {| choice_message := {| role := "assistant"; content := text |} |} ] |}.

(** Every service answers; the inflation rate is [rate]. *)
Definition gw_rate (rate : float) : Gateways := {|
  ALPHA_VANTAGE_API_KEY := Some "demo";
  alpha_vantage := fun _ => InflationValue rate;
  yf_info := fun t => inr (quote t 150);
  chat_completion := fun _ _ => inr (reply "Diversify.");
  libm_pow := sample_pow;
  group_sum := float64_sum
|}.

(** Alpha Vantage and OpenAI are unreachable; Yahoo has no price for MSFT
    and GOOGL. *)
Definition gw_down : Gateways := {|
  ALPHA_VANTAGE_API_KEY := None;
  alpha_vantage := fun _ => InflationRaises (Exn "ConnectionError" "no route to host");
  yf_info := fun t =>
    if String.eqb t "MSFT" then inr ∅
    else if String.eqb t "GOOGL" then inr (<["currentPrice" := PyNone]> (quote t 0))
    else inr (quote t 150);
  chat_completion := fun _ _ => inl (Exn "APIConnectionError" "Error communicating with OpenAI");
  libm_pow := sample_pow;
  group_sum := object_sum
|}.

(** Yahoo answers for AMZN with a price and no market cap. *)
Definition gw_no_cap : Gateways := {|
  ALPHA_VANTAGE_API_KEY := Some "demo";
  alpha_vantage := fun _ => InflationNoData;
  yf_info := fun t =>
    if String.eqb t "AMZN" then inr (delete "marketCap" (quote t 180))
    else inr (quote t 150);
  chat_completion := fun _ _ => inr (reply "Diversify.");
  libm_pow := sample_pow;
  group_sum := float64_sum
|}.

(** Yahoo has no price for MSFT, and answers for AMZN with a price and no
    market cap. *)
Definition gw_unpriced_and_broken : Gateways := {|
  ALPHA_VANTAGE_API_KEY := Some "demo";
  alpha_vantage := fun _ => InflationValue 3;
  yf_info := fun t =>
    if String.eqb t "MSFT" then inr ∅
    else if String.eqb t "AMZN" then inr (delete "marketCap" (quote t 180))
    else inr (quote t 150);
  chat_completion := fun _ _ => inr (reply "Diversify.");
  libm_pow := sample_pow;
  group_sum := float64_sum
|}.

(** Yahoo quotes TSLA at a price of 0. *)
Definition gw_zero_price : Gateways := {|
  ALPHA_VANTAGE_API_KEY := Some "demo";
  alpha_vantage := fun _ => InflationValue 3;
  yf_info := fun t => if String.eqb t "TSLA" then inr (quote t 0) else inr (quote t 150);
  chat_completion := fun _ _ => inr (reply "Diversify.");
  libm_pow := sample_pow;
  group_sum := float64_sum
|}.

(** The bot after [set_retirement_plan(30, 65, 50000, 500, goal)]. *)
Definition bot_with_goal (goal : float) : Bot :=
  state_of (set_retirement_plan (Some 30%Z) (Some 65%Z) (Some 50000%float) (Some 500%float)
              (Some goal) init).

(** The bot after [set_retirement_plan(current, retirement, 50000, 500, 1000000)]. *)
Definition bot_with_ages (current retirement : Z) : Bot :=
  state_of (set_retirement_plan (Some current) (Some retirement) (Some 50000%float)
              (Some 500%float) (Some 1000000%float) init).

(** The table [suggest_stocks] returns for 1000 to invest when MSFT and
    GOOGL have no price. *)
Definition rows_down : list SuggestionRow :=
  Eval vm_compute in
    match result_of (suggest_stocks gw_down 1000 10 init) with
    | Return (Some rows) => rows
    | _ => []
    end.

(** The table [suggest_stocks] returns for 1000 to invest when TSLA is
    quoted at 0. *)
Definition rows_zero_price : list SuggestionRow :=
  Eval vm_compute in
    match result_of (suggest_stocks gw_zero_price 1000 10 init) with
    | Return (Some rows) => rows
    | _ => []
    end.

(** The three calls of the example of the expense summary. *)
Definition sample_calls : list (string * string * float) :=
  [ ("2024-01-01", "Groceries", 50%float);
    ("2024-01-02", "Groceries", 30%float);
    ("2024-01-03", "Rent", 1200%float) ].

(** The three calls of [sample_calls], entered in the opposite order. *)
Definition sample_calls_reversed : list (string * string * float) :=
  [ ("2024-01-03", "Rent", 1200%float);
    ("2024-01-02", "Groceries", 30%float);
    ("2024-01-01", "Groceries", 50%float) ].

(** One expense of 0.1 under B, then 0.3 and 0.2 under A. *)
Definition calls_tenths : list (string * string * float) :=
  [ ("2024-01-01", "B", 0.1%float);
    ("2024-01-02", "A", 0.3%float);
    ("2024-01-03", "A", 0.2%float) ].


(** 0.1 and 0.2 under the same category. *)
Definition calls_one_category : list (string * string * float) :=
  [ ("2024-01-01", "A", 0.1%float);
    ("2024-01-02", "A", 0.2%float) ].

(** ** The Streamlit script around the class

    The script below the class is run from its first line for every
    interaction.  A run reads the widgets (their values are the fields of
    [Widgets]), calls the bot and shows text and tables.  What a run puts on
    the page and what the bot does to the outside are kept in one list, in
    order.  Input widgets show nothing but themselves and are not listed. *)

Inductive display :=
| StTitle (text : string)
| StSidebarHeader (text : string)
| StHeader (text : string)
| StWrite (text : string)
| StSuccess (text : string)
| StDataframeSummary (summary : list (string * float))
| StDataframeStocks (stocks : list SuggestionRow).

Inductive output :=
| Effect (ev : event)
| Display (d : display).

Definition Script (A : Type) : Type := Bot -> outcome A * Bot * list output.

Definition script_ret {A} (a : A) : Script A := fun bot => (Return a, bot, []).

Definition script_bind {A B} (m : Script A) (f : A -> Script B) : Script B :=
  fun bot =>
    match m bot with
    | (Return a, bot1, out1) =>
        match f a bot1 with
        | (r, bot2, out2) => (r, bot2, out1 ++ out2)
        end
    | (Raise e, bot1, out1) => (Raise e, bot1, out1)
    end.

(** A call of a method of [bot]. *)
Definition call {A} (m : M A) : Script A :=
  fun bot =>
    match m bot with
    | (r, bot1, log) => (r, bot1, map Effect log)
    end.

Definition show (d : display) : Script unit := fun bot => (Return tt, bot, [Display d]).

Definition the_bot : Script Bot := fun bot => (Return bot, bot, []).

Declare Scope script_scope.
Delimit Scope script_scope with script.
Notation "x <- m ;; k" := (script_bind m (fun x => k)) (only parsing) : script_scope.
Notation "m ;;; k" := (script_bind m (fun _ => k)) (only parsing) : script_scope.

(** The values of the widgets of the form ["Add Expense"]. *)
Record ExpenseForm := {
  expense_date : string;
  expense_category : string;
  expense_amount : float;
  expense_submitted : bool
}.

(** The values of the widgets of the form ["Set Retirement Plan"]. *)
Record PlanForm := {
  form_current_age : Z;
  form_retirement_age : Z;
  form_current_savings : float;
  form_monthly_contribution : float;
  form_savings_goal : float;
  plan_submitted : bool
}.

(** The values of the widgets of the form ["Suggest Stocks"]. *)
Record StockForm := {
  form_investment_amount : float;
  form_years : Z;
  stock_submitted : bool
}.

(** The text area and the button of the advice page. *)
Record AdviceForm := {
  user_prompt : string;
  advice_clicked : bool
}.

Record Widgets := {
  menu : string;
  expense_form : ExpenseForm;
  plan_form : PlanForm;
  stock_form : StockForm;
  advice_form : AdviceForm
}.

Definition newline : string := String (ascii_of_nat 10) "".

Definition home_text : string :=
  newline ++ "    Welcome to the Financial Advisor AI Bot!  "
  ++ newline ++ "    Use this app to track your expenses, plan for retirement, and get personalized financial advice."
  ++ newline ++ "    ".

Section TheScript.

(** [str(x)] of a float, which [f"{amount}"] puts into the text: the shortest
    decimal that reads back as the same float, left open here. *)
Variable str_float : float -> string.

Local Open Scope script_scope.

Definition expense_tracker_page (gw : Gateways) (f : ExpenseForm) : Script unit :=
  show (StHeader "Expense Tracker") ;;;
  (if expense_submitted f then
     call (add_expense (expense_date f) (expense_category f) (expense_amount f)) ;;;
     show (StSuccess ("Added: " ++ expense_category f ++ " - $"
                        ++ str_float (expense_amount f) ++ " on " ++ expense_date f))
   else script_ret tt) ;;;
  bot <- the_bot ;;
  match expenses bot with
  | _ :: _ =>
      show (StWrite "### Expense Summary") ;;;
      summary <- call (get_expense_summary gw) ;;
      show (StDataframeSummary summary)
  | [] => show (StWrite "No expenses recorded yet.")
  end.

Definition retirement_planner_page (gw : Gateways) (f : PlanForm) : Script unit :=
  show (StHeader "Retirement Planner") ;;;
  (if plan_submitted f then
     call (set_retirement_plan (Some (form_current_age f)) (Some (form_retirement_age f))
             (Some (form_current_savings f)) (Some (form_monthly_contribution f))
             (Some (form_savings_goal f))) ;;;
     show (StSuccess "Retirement plan updated!")
   else script_ret tt) ;;;
  bot <- the_bot ;;
  match current_age (retirement_plan bot) with
  | Some _ =>
      projection <- call (project_retirement_savings gw) ;;
      show (StWrite ("### Adjusted Savings Goal with Inflation ("
                       ++ format_2f (inflation_rate projection) ++ "%):")) ;;;
      show (StWrite ("$" ++ format_2f (adjusted_goal projection)))
  | None => script_ret tt
  end.

Definition stock_suggestions_page (gw : Gateways) (f : StockForm) : Script unit :=
  show (StHeader "Stock Suggestions") ;;;
  if stock_submitted f then
    stocks <- call (suggest_stocks gw (form_investment_amount f) (form_years f)) ;;
    match stocks with
    | Some rows =>
        show (StWrite "### Suggested Stocks for Long-Term Investment") ;;;
        show (StDataframeStocks rows)
    | None => script_ret tt
    end
  else script_ret tt.

Definition advice_page (gw : Gateways) (f : AdviceForm) : Script unit :=
  show (StHeader "Financial Advice") ;;;
  if advice_clicked f then
    advice <- call (generate_financial_advice gw (user_prompt f)) ;;
    show (StWrite "### Advice:") ;;;
    show (StWrite advice)
  else script_ret tt.

(** One run of the script: a new bot, the title, the sidebar, and the page
    chosen in the sidebar. *)
Definition script (gw : Gateways) (w : Widgets) : outcome unit * Bot * list output :=
  (show (StTitle "Financial Advisor AI Bot") ;;;
   show (StSidebarHeader "Navigation") ;;;
   if String.eqb (menu w) "Home" then show (StWrite home_text)
   else if String.eqb (menu w) "Expense Tracker" then expense_tracker_page gw (expense_form w)
   else if String.eqb (menu w) "Retirement Planner"
        then retirement_planner_page gw (plan_form w)
   else if String.eqb (menu w) "Stock Suggestions"
        then stock_suggestions_page gw (stock_form w)
   else if String.eqb (menu w) "Ask Financial Advice" then advice_page gw (advice_form w)
   else script_ret tt) init.

End TheScript.

(** The top of every page. *)
Definition page_top : list output :=
  [Display (StTitle "Financial Advisor AI Bot"); Display (StSidebarHeader "Navigation")].

(** Widgets at rest: nothing entered, nothing pressed, [page] chosen. *)
Definition widgets_on (page : string) : Widgets := {|
  menu := page;
  expense_form := {| expense_date := "2024-01-01"; expense_category := "";
                     expense_amount := 0; expense_submitted := false |};
  plan_form := {| form_current_age := 0; form_retirement_age := 0;
                  form_current_savings := 0; form_monthly_contribution := 0;
                  form_savings_goal := 0; plan_submitted := false |};
  stock_form := {| form_investment_amount := 0; form_years := 1;
                   stock_submitted := false |};
  advice_form := {| user_prompt := ""; advice_clicked := false |}
|}.

Definition script_result (r : outcome unit * Bot * list output) : outcome unit := fst (fst r).
Definition script_bot (r : outcome unit * Bot * list output) : Bot := snd (fst r).
Definition script_output (r : outcome unit * Bot * list output) : list output := snd r.

(** The plan form filled in and submitted on the retirement page. *)
Definition widgets_plan (current retirement : Z) (goal : float) : Widgets := {|
  menu := "Retirement Planner";
  expense_form := expense_form (widgets_on "");
  plan_form := {| form_current_age := current; form_retirement_age := retirement;
                  form_current_savings := 50000; form_monthly_contribution := 500;
                  form_savings_goal := goal; plan_submitted := true |};
  stock_form := stock_form (widgets_on "");
  advice_form := advice_form (widgets_on "")
|}.

(** An expense entered and submitted on the expense page. *)
Definition widgets_expense (date category : string) (amount : float) : Widgets := {|
  menu := "Expense Tracker";
  expense_form := {| expense_date := date; expense_category := category;
                     expense_amount := amount; expense_submitted := true |};
  plan_form := plan_form (widgets_on "");
  stock_form := stock_form (widgets_on "");
  advice_form := advice_form (widgets_on "")
|}.

(** An amount entered and submitted on the stock page. *)
Definition widgets_stocks (amount : float) (years : Z) : Widgets := {|
  menu := "Stock Suggestions";
  expense_form := expense_form (widgets_on "");
  plan_form := plan_form (widgets_on "");
  stock_form := {| form_investment_amount := amount; form_years := years;
                   stock_submitted := true |};
  advice_form := advice_form (widgets_on "")
|}.

(** A question entered on the advice page, and the button pressed. *)
Definition widgets_advice (prompt : string) : Widgets := {|
  menu := "Ask Financial Advice";
  expense_form := expense_form (widgets_on "");
  plan_form := plan_form (widgets_on "");
  stock_form := stock_form (widgets_on "");
  advice_form := {| user_prompt := prompt; advice_clicked := true |}
|}.

(** * Properties *)

(** ** Multiplying a float by one *)

Lemma digits2_pos_shift (m k : positive) :
  Zpos (digits2_pos (Pos.iter xO m k)) = (Zpos (digits2_pos m) + Zpos k)%Z.
Proof.
  induction k using Pos.peano_ind.
  - simpl. lia.
  - rewrite Pos.iter_succ. simpl digits2_pos. lia.
Qed.

(** [x * 1.0] is [x] for every float: the product of the mantissa with
    [2^52] is shifted back by 52 bits without loss. *)
Lemma float_mul_one (x : float) : (x * 1)%float = x.
Proof.
  apply Prim2SF_inj. rewrite mul_spec.
  pose proof (Prim2SF_valid x) as Hv.
  change (Prim2SF 1) with (S754_finite false 4503599627370496 (-52)).
  destruct (Prim2SF x) as [s | s | | s m e]; try reflexivity; try (destruct s; reflexivity).
  unfold SF64mul, SFmul.
  simpl in Hv. unfold bounded, canonical_mantissa in Hv.
  apply andb_prop in Hv. destruct Hv as [Hc Hb]. apply Z.eqb_eq in Hc.
  rewrite Pos.mul_comm.
  change (4503599627370496 * m)%positive with (Pos.iter xO m 52).
  unfold binary_round_aux, shr_fexp.
  cbn [Zdigits2]. rewrite digits2_pos_shift.
  replace (Z.pos (digits2_pos m) + 52 + (e + -52))%Z
    with (Z.pos (digits2_pos m) + e)%Z by lia.
  rewrite Hc.
  replace (e - (e + -52))%Z with 52%Z by lia.
  change (shr (shr_record_of_loc (Z.pos (Pos.iter xO m 52)) loc_Exact) (e + -52) 52)
    with ({| shr_m := Zpos m; shr_r := false; shr_s := false |}, (e + -52 + 52)%Z).
  cbn [shr_m loc_of_shr_record round_nearest_even Zdigits2].
  replace (e + -52 + 52)%Z with e by lia. rewrite Hc, Z.sub_diag.
  cbn [shr shr_record_of_loc shr_m]. rewrite Hb.
  destruct s; reflexivity.
Qed.


(** ** The order on category names *)

Lemma compare_Lt_lt (a b : string) : String.compare a b = Lt -> str_lt a b.
Proof. intros H. apply String_as_OT.cmp_lt. exact H. Qed.

Lemma compare_Gt_lt (a b : string) : String.compare a b = Gt -> str_lt b a.
Proof.
  intros H. apply compare_Lt_lt.
  rewrite String.compare_antisym in H.
  destruct (String.compare b a); simpl in H; congruence.
Qed.

Lemma str_lt_irrefl (a : string) : ~ str_lt a a.
Proof. intros H. exact (String_as_OT.lt_not_eq a a H eq_refl). Qed.

Lemma str_lt_neq (a b : string) : str_lt a b -> a <> b.
Proof. intros H E. subst. exact (str_lt_irrefl b H). Qed.



(** ** [upsert] keeps the groups sorted and hands the amount to one group *)

Lemma upsert_keys (c : string) (a : float) (acc : list (string * list float)) (k : string) :
  List.In k (map fst (upsert c a acc)) <-> k = c \/ List.In k (map fst acc).
Proof.
  induction acc as [| [k0 v0] rest IH]; simpl.
  - intuition.
  - destruct (String.compare c k0) eqn:E; simpl.
    + apply String.compare_eq_iff in E. subst k0. intuition.
    + intuition.
    + rewrite IH. intuition.
Qed.

Lemma upsert_sorted (c : string) (a : float) (acc : list (string * list float)) :
  StronglySorted str_lt (map fst acc) ->
  StronglySorted str_lt (map fst (upsert c a acc)).
Proof.
  induction acc as [| [k0 v0] rest IH]; simpl; intros Hs.
  - repeat constructor.
  - inversion Hs as [| ? ? Hrest HF]; subst.
    destruct (String.compare c k0) eqn:E; simpl.
    + constructor; assumption.
    + apply compare_Lt_lt in E.
      constructor; [exact Hs |].
      constructor; [exact E |].
      rewrite List.Forall_forall in *. intros x Hx.
      exact (String_as_OT.lt_trans _ _ _ E (HF x Hx)).
    + apply compare_Gt_lt in E.
      constructor; [apply IH; exact Hrest |].
      rewrite List.Forall_forall in *. intros x Hx.
      apply upsert_keys in Hx. destruct Hx as [-> | Hx]; [exact E | exact (HF x Hx)].
Qed.

(** Where a group of the updated grouping comes from. *)
Lemma upsert_In (c0 : string) (a : float) (acc : list (string * list float))
    (c : string) (vs : list float) :
  StronglySorted str_lt (map fst acc) ->
  List.In (c, vs) (upsert c0 a acc) ->
  (c <> c0 /\ List.In (c, vs) acc) \/
  (c = c0 /\ exists old, vs = old ++ [a] /\
     (List.In (c0, old) acc \/ (old = [] /\ ~ List.In c0 (map fst acc)))).
Proof.
  induction acc as [| [k0 v0] rest IH]; simpl; intros Hs Hin.
  - destruct Hin as [Hin | []]. inversion Hin; subst.
    right. split; [reflexivity |]. exists []. split; [reflexivity |]. right. tauto.
  - inversion Hs as [| ? ? Hrest HF]; subst.
    assert (Hkeys : forall x y, List.In (x, y) rest -> str_lt k0 x).
    { intros x y Hxy. rewrite List.Forall_forall in HF. apply HF.
      apply (List.in_map fst) in Hxy. exact Hxy. }
    destruct (String.compare c0 k0) eqn:E.
    + apply String.compare_eq_iff in E. subst k0.
      destruct Hin as [Hin | Hin].
      * inversion Hin; subst. right. split; [reflexivity |].
        exists v0. split; [reflexivity |]. left. left. reflexivity.
      * left. split; [| right; exact Hin].
        intros ->. exact (str_lt_irrefl _ (Hkeys _ _ Hin)).
    + apply compare_Lt_lt in E.
      assert (Hfresh : ~ (k0 = c0 \/ List.In c0 (map fst rest))).
      { intros [-> | Hc]; [exact (str_lt_irrefl _ E) |].
        rewrite List.Forall_forall in HF.
        exact (str_lt_irrefl _ (String_as_OT.lt_trans _ _ _ E (HF _ Hc))). }
      destruct Hin as [Hin | Hin].
      * inversion Hin; subst. right. split; [reflexivity |].
        exists []. split; [reflexivity |]. right. split; [reflexivity | exact Hfresh].
      * left. split; [| exact Hin].
        intros ->. apply Hfresh.
        destruct Hin as [Hin | Hin]; [inversion Hin; left; reflexivity |].
        right. apply (List.in_map fst) in Hin. exact Hin.
    + apply compare_Gt_lt in E.
      destruct Hin as [Hin | Hin].
      * inversion Hin; subst. left. split; [| left; reflexivity].
        apply str_lt_neq. exact E.
      * destruct (IH Hrest Hin) as [[Hne Hold] | [-> [old [Hvs Hold]]]].
        -- left. split; [exact Hne | right; exact Hold].
        -- right. split; [reflexivity |]. exists old. split; [exact Hvs |].
           destruct Hold as [Hold | [-> Hold]]; [left; right; exact Hold |].
           right. split; [reflexivity |].
           intros [-> | Hc]; [exact (str_lt_irrefl _ E) | exact (Hold Hc)].
Qed.

(** ** The values of a category *)

Lemma category_values_snoc (c : string) (df : list Expense) (row : Expense) :
  category_values c (df ++ [row]) =
  if String.eqb (Category row) c
  then category_values c df ++ [Amount row]
  else category_values c df.
Proof.
  unfold category_values. rewrite List.filter_app. simpl.
  destruct (String.eqb (Category row) c).
  - rewrite List.map_app. reflexivity.
  - rewrite List.app_nil_r. reflexivity.
Qed.

Lemma category_values_absent (c : string) (df : list Expense) :
  ~ List.In c (map Category df) -> category_values c df = [].
Proof.
  intros Hnot. unfold category_values.
  replace (List.filter (fun row => String.eqb (Category row) c) df) with (@nil Expense);
    [reflexivity |].
  symmetry. induction df as [| row df IH]; simpl; [reflexivity |].
  destruct (String.eqb_spec (Category row) c) as [E | E].
  - exfalso. apply Hnot. left. exact E.
  - apply IH. intros Hin. apply Hnot. right. exact Hin.
Qed.

(** ** The grouping against the table it groups *)

Lemma groups_snoc (df : list Expense) (row : Expense) :
  groups (df ++ [row]) = upsert (Category row) (Amount row) (groups df).
Proof. unfold groups. rewrite List.fold_left_app. reflexivity. Qed.

Lemma groups_spec (df : list Expense) :
  StronglySorted str_lt (map fst (groups df)) /\
  (forall c, List.In c (map fst (groups df)) <-> List.In c (map Category df)) /\
  (forall c vs, List.In (c, vs) (groups df) -> vs = category_values c df).
Proof.
  induction df as [| row df [Hs [Hk Ht]]] using List.rev_ind.
  - split; [constructor |]. split; [reflexivity |]. intros c t [].
  - rewrite groups_snoc. split; [apply upsert_sorted; exact Hs |]. split.
    + intros c. rewrite upsert_keys, Hk, List.map_app, List.in_app_iff. simpl. intuition.
    + intros c vs Hin. rewrite category_values_snoc.
      destruct (upsert_In _ _ _ _ _ Hs Hin) as [[Hne Hold] | [-> [old [-> Hold]]]].
      * destruct (String.eqb_spec (Category row) c) as [E | _]; [congruence |].
        apply Ht. exact Hold.
      * rewrite String.eqb_refl.
        destruct Hold as [Hold | [-> Hold]].
        -- rewrite (Ht _ _ Hold). reflexivity.
        -- rewrite category_values_absent; [reflexivity |].
           intros Hc. apply Hold. apply Hk. exact Hc.
Qed.

Lemma groupby_sum_keys (sum : list float -> float) (df : list Expense) :
  map fst (groupby_sum sum df) = map fst (groups df).
Proof. unfold groupby_sum. rewrite List.map_map. reflexivity. Qed.

Lemma groupby_sum_In (sum : list float -> float) (df : list Expense)
    (c : string) (t : float) :
  List.In (c, t) (groupby_sum sum df) <->
  List.In c (map Category df) /\ t = sum (category_values c df).
Proof.
  destruct (groups_spec df) as [_ [Hk Ht]]. unfold groupby_sum. split.
  - intros Hin. apply List.in_map_iff in Hin. destruct Hin as [[k vs] [E Hin]].
    simpl in E. inversion E; subst. split.
    + apply Hk. apply (List.in_map fst) in Hin. exact Hin.
    + rewrite (Ht _ _ Hin). reflexivity.
  - intros [Hc ->]. apply Hk in Hc. apply List.in_map_iff in Hc.
    destruct Hc as [[c0 vs] [Hfst Hin]]. simpl in Hfst. subst c0.
    apply List.in_map_iff. exists (c, vs). split; [| exact Hin].
    simpl. rewrite (Ht _ _ Hin). reflexivity.
Qed.

(** ** The ledger after a sequence of calls *)

Lemma add_all_run (calls : list (string * string * float)) (self : Bot) :
  add_all calls self =
  (Return tt,
   {| expenses := expenses self ++ map expense_of_call calls;
      retirement_plan := retirement_plan self |},
   []).
Proof.
  revert self. induction calls as [| [[date category] amount] rest IH]; intros self.
  - simpl. unfold ret. rewrite List.app_nil_r. destruct self; reflexivity.
  - simpl. unfold bind at 1. unfold add_expense at 1.
    unfold bind, get_self, put_self. simpl. rewrite IH. simpl.
    rewrite <- List.app_assoc. reflexivity.
Qed.


Lemma category_values_calls (c : string) (calls : list (string * string * float)) :
  category_values c (map expense_of_call calls) =
  map snd (List.filter (fun call => String.eqb (snd (fst call)) c) calls).
Proof.
  unfold category_values.
  induction calls as [| call rest IH]; simpl; [reflexivity |].
  destruct (String.eqb (snd (fst call)) c); simpl; rewrite IH; reflexivity.
Qed.

(** ** Claims on the expense ledger *)


(** C8.  On a bot to which no expense was added, [get_expense_summary]
    returns the empty table: no row, no exception, no notice, and the bot
    is left as it was. *)
Theorem summary_of_empty_ledger (gw : Gateways) (self : Bot) :
  expenses self = [] ->
  get_expense_summary gw self = (Return [], self, []).
Proof.
  intros Hempty. unfold get_expense_summary, bind, get_self, ret.
  rewrite Hempty. reflexivity.
Qed.

(** ** The loop of [suggest_stocks] *)

Lemma fetch_quotes_step (gw : Gateways) (t : string) (rest : list string)
    (sd : list (string * StockRow)) (self : Bot) :
  fetch_quotes gw (t :: rest) sd self =
  match verdict_of gw t with
  | Aborted e => (Raise e, self, [EvTickerInfo t])
  | Omitted =>
      match fetch_quotes gw rest sd self with
      | (r, s, l) => (r, s, EvTickerInfo t :: l)
      end
  | Kept row =>
      match fetch_quotes gw rest (dict_set sd t row) self with
      | (r, s, l) => (r, s, EvTickerInfo t :: l)
      end
  end.
Proof.
  simpl. unfold verdict_of, row_of, bind, emit, lift_sum, getitem.
  destruct (yf_info gw t) as [e | info]; simpl; [reflexivity |].
  destruct (truthy (dict_get info "currentPrice")); simpl.
  - destruct (info !! "shortName"); simpl; [| reflexivity].
    destruct (info !! "marketCap"); simpl; [| reflexivity].
    destruct (info !! "fiftyTwoWeekHigh"); simpl; [| reflexivity].
    destruct (info !! "fiftyTwoWeekLow"); simpl; [| reflexivity].
    destruct (fetch_quotes gw rest _ self) as [[r s] l]. reflexivity.
  - destruct (fetch_quotes gw rest sd self) as [[r s] l]. reflexivity.
Qed.

Lemma dict_set_fresh (sd : list (string * StockRow)) (t : string) (row : StockRow) :
  ~ List.In t (map fst sd) -> dict_set sd t row = sd ++ [(t, row)].
Proof.
  induction sd as [| [k v] sd IH]; simpl; intros Hnot; [reflexivity |].
  destruct (String.eqb_spec k t) as [E | _]; [exfalso; apply Hnot; left; exact E |].
  rewrite IH; [reflexivity |]. intros Hin. apply Hnot. right. exact Hin.
Qed.

(** No ticker aborts: the loop visits every ticker and keeps, in order, the
    rows of those with a price. *)
Lemma fetch_quotes_ok (gw : Gateways) (tickers : list string) :
  (forall t e, List.In t tickers -> verdict_of gw t <> Aborted e) ->
  List.NoDup tickers ->
  forall sd self,
    (forall t, List.In t tickers -> ~ List.In t (map fst sd)) ->
    fetch_quotes gw tickers sd self =
    (Return (sd ++ kept_rows gw tickers), self, map EvTickerInfo tickers).
Proof.
  induction tickers as [| t rest IH]; intros Hok Hnd sd self Hfresh.
  - simpl. unfold ret. rewrite List.app_nil_r. reflexivity.
  - rewrite fetch_quotes_step. inversion Hnd as [| ? ? Hnotin Hnd']; subst.
    assert (Hok' : forall t0 e, List.In t0 rest -> verdict_of gw t0 <> Aborted e).
    { intros t0 e Hin. apply Hok. right. exact Hin. }
    unfold kept_rows. simpl. fold (kept_rows gw rest).
    destruct (verdict_of gw t) as [| row | e] eqn:Ev.
    + rewrite (IH Hok' Hnd' sd self); [reflexivity |].
      intros t0 Hin. apply Hfresh. right. exact Hin.
    + rewrite dict_set_fresh by (apply Hfresh; left; reflexivity).
      rewrite (IH Hok' Hnd' (sd ++ [(t, row)]) self).
      * rewrite <- List.app_assoc. reflexivity.
      * intros t0 Hin. rewrite List.map_app, List.in_app_iff. simpl.
        intros [Hsd | [<- | []]].
        -- exact (Hfresh t0 (or_intror Hin) Hsd).
        -- exact (Hnotin Hin).
    + exfalso. exact (Hok t e (or_introl eq_refl) Ev).
Qed.

(** One ticker aborts: the loop raises, whatever the other tickers do. *)
Lemma fetch_quotes_abort (gw : Gateways) (tickers : list string) (t : string) (e : exn) :
  List.In t tickers -> verdict_of gw t = Aborted e ->
  forall sd self, exists e' l, fetch_quotes gw tickers sd self = (Raise e', self, l).
Proof.
  induction tickers as [| t0 rest IH]; intros Hin Hv sd self; [destruct Hin |].
  rewrite fetch_quotes_step.
  destruct (verdict_of gw t0) as [| row | e0] eqn:Ev.
  - destruct Hin as [-> | Hin]; [congruence |].
    destruct (IH Hin Hv sd self) as [e' [l ->]]. eauto.
  - destruct Hin as [-> | Hin]; [congruence |].
    destruct (IH Hin Hv (dict_set sd t0 row) self) as [e' [l ->]]. eauto.
  - eauto.
Qed.

Lemma fetch_quotes_state (gw : Gateways) (tickers : list string) :
  forall sd self, state_of (fetch_quotes gw tickers sd self) = self.
Proof.
  induction tickers as [| t rest IH]; intros sd self; [reflexivity |].
  rewrite fetch_quotes_step.
  destruct (verdict_of gw t) as [| row | e]; [| | reflexivity].
  - specialize (IH sd self). destruct (fetch_quotes gw rest sd self) as [[r s] l]. exact IH.
  - specialize (IH (dict_set sd t row) self).
    destruct (fetch_quotes gw rest _ self) as [[r s] l]. exact IH.
Qed.

Lemma stock_tickers_NoDup : List.NoDup stock_tickers.
Proof.
  unfold stock_tickers.
  repeat (apply List.NoDup_cons; [simpl; intuition discriminate |]).
  apply List.NoDup_nil.
Qed.

Lemma kept_rows_keys (gw : Gateways) (tickers : list string) :
  map fst (kept_rows gw tickers) =
  List.filter (fun t => match verdict_of gw t with Kept _ => true | _ => false end) tickers.
Proof.
  induction tickers as [| t rest IH]; [reflexivity |].
  unfold kept_rows in *. simpl. destruct (verdict_of gw t); simpl; rewrite IH; reflexivity.
Qed.

Lemma kept_rows_In (gw : Gateways) (tickers : list string) (t : string) (row : StockRow) :
  List.In (t, row) (kept_rows gw tickers) -> verdict_of gw t = Kept row.
Proof.
  unfold kept_rows. rewrite List.in_flat_map. intros [t0 [_ Hin]].
  destruct (verdict_of gw t0) eqn:Ev; simpl in Hin; try tauto.
  destruct Hin as [Hin | []]. inversion Hin; subst. exact Ev.
Qed.

Lemma kept_rows_intro (gw : Gateways) (tickers : list string) (t : string) (row : StockRow) :
  List.In t tickers -> verdict_of gw t = Kept row -> List.In (t, row) (kept_rows gw tickers).
Proof.
  intros Hin Hv. unfold kept_rows. apply List.in_flat_map.
  exists t. split; [exact Hin |]. rewrite Hv. left. reflexivity.
Qed.

Lemma row_of_inr (info : gmap string pyval) (row : StockRow) :
  row_of info = inr row ->
  Current_Price row = dict_get info "currentPrice" /\
  info !! "shortName" = Some (Name row) /\
  info !! "marketCap" = Some (Market_Cap row) /\
  info !! "fiftyTwoWeekHigh" = Some (Week52_High row) /\
  info !! "fiftyTwoWeekLow" = Some (Week52_Low row).
Proof.
  unfold row_of.
  destruct (info !! "shortName"); [| discriminate].
  destruct (info !! "marketCap"); [| discriminate].
  destruct (info !! "fiftyTwoWeekHigh"); [| discriminate].
  destruct (info !! "fiftyTwoWeekLow"); [| discriminate].
  intros H. inversion H; subst; simpl. repeat split; reflexivity.
Qed.

Lemma row_of_fields (info : gmap string pyval) :
  has_other_fields info <-> exists row, row_of info = inr row.
Proof.
  split.
  - intros [[name Hn] [[cap Hc] [[high Hh] [low Hl]]]].
    unfold row_of. rewrite Hn, Hc, Hh, Hl. eauto.
  - intros [row H]. apply row_of_inr in H. destruct H as [_ [Hn [Hc [Hh Hl]]]].
    unfold has_other_fields. rewrite Hn, Hc, Hh, Hl. eauto.
Qed.

Lemma verdict_Kept_inv (gw : Gateways) (t : string) (row : StockRow) :
  verdict_of gw t = Kept row ->
  exists info, yf_info gw t = inr info /\
    truthy (dict_get info "currentPrice") = true /\ row_of info = inr row.
Proof.
  unfold verdict_of. destruct (yf_info gw t) as [e | info]; [discriminate |].
  destruct (truthy (dict_get info "currentPrice")) eqn:Hprice; [| discriminate].
  destruct (row_of info) as [e | row0] eqn:Hrow; [discriminate |].
  intros H. inversion H; subst. exists info. auto.
Qed.

(** The test [if price:] succeeds exactly on the quotes that have a price. *)
Lemma priced_truthy (info : gmap string pyval) :
  priced info <-> truthy (dict_get info "currentPrice") = true.
Proof.
  unfold priced, dict_get.
  destruct (info !! "currentPrice") as [[| z | x | s] |]; simpl.
  - split; [tauto | discriminate].
  - rewrite Bool.negb_true_iff, Z.eqb_neq. reflexivity.
  - rewrite Bool.negb_true_iff. reflexivity.
  - rewrite Bool.negb_true_iff. split.
    + intros H. destruct (String.eqb_spec s ""); [contradiction | reflexivity].
    + intros H E. subst s. discriminate H.
  - split; [tauto | discriminate].
Qed.

(** A price entry that is there is the one the row shows. *)
Lemma priced_entry (info : gmap string pyval) :
  priced info -> info !! "currentPrice" = Some (dict_get info "currentPrice").
Proof.
  unfold priced, dict_get. destruct (info !! "currentPrice"); [reflexivity | tauto].
Qed.

Lemma well_formed_verdict (gw : Gateways) (t : string) :
  well_formed_quote gw t -> forall e, verdict_of gw t <> Aborted e.
Proof.
  intros [info [Hinfo Hwf]] e. unfold verdict_of. rewrite Hinfo.
  destruct (truthy (dict_get info "currentPrice")) eqn:Hprice; [| discriminate].
  apply priced_truthy in Hprice.
  destruct (proj1 (row_of_fields info) (Hwf Hprice)) as [row ->]. discriminate.
Qed.

Lemma suggest_stocks_run (gw : Gateways) (investment_amount : float) (years : Z) (self : Bot) :
  suggest_stocks gw investment_amount years self =
  match fetch_quotes gw stock_tickers [] self with
  | (Return sd, s, l) =>
      (Return (Some (with_suggested sd (investment_amount / 5)%float)), s, l)
  | (Raise e, s, l) =>
      (Return None, s, l ++ [EvStError ("Error fetching stock data: " ++ exn_str e)])
  end.
Proof.
  unfold suggest_stocks, try_except, bind, ret, st_error, emit.
  destruct (fetch_quotes gw stock_tickers [] self) as [[[sd | e] s] l]; simpl.
  - rewrite List.app_nil_r. reflexivity.
  - reflexivity.
Qed.

Lemma quote_aborts_verdict (gw : Gateways) (t : string) :
  quote_aborts gw t <-> exists e, verdict_of gw t = Aborted e.
Proof.
  unfold quote_aborts, verdict_of.
  destruct (yf_info gw t) as [e | info]; [split; eauto |].
  destruct (truthy (dict_get info "currentPrice")).
  - destruct (row_of info) as [e | row] eqn:Hrow.
    + split; [eauto |]. intros _. split; [reflexivity |].
      intros Hf. apply row_of_fields in Hf. destruct Hf as [row Hf]. congruence.
    + split; [| intros [e He]; discriminate].
      intros [_ Hf]. exfalso. apply Hf. apply row_of_fields. eauto.
  - split; [intros [H _]; discriminate | intros [e He]; discriminate].
Qed.

Lemma aborts_or_not (gw : Gateways) (tickers : list string) :
  (forall t e, List.In t tickers -> verdict_of gw t <> Aborted e) \/
  (exists t e, List.In t tickers /\ verdict_of gw t = Aborted e).
Proof.
  induction tickers as [| t rest [IH | [t0 [e [Hin Hv]]]]].
  - left. intros t e [].
  - destruct (verdict_of gw t) as [| row | e] eqn:Hv.
    + left. intros t0 e [<- | Hin]; [congruence | exact (IH t0 e Hin)].
    + left. intros t0 e [<- | Hin]; [congruence | exact (IH t0 e Hin)].
    + right. exists t, e. split; [left; reflexivity | exact Hv].
  - right. exists t0, e. split; [right; exact Hin | exact Hv].
Qed.

(** A returned table is the table of the kept rows, and no ticker aborted. *)
Lemma suggest_stocks_rows
    (gw : Gateways) (investment_amount : float) (years : Z) (self : Bot)
    (rows : list SuggestionRow) :
  result_of (suggest_stocks gw investment_amount years self) = Return (Some rows) ->
  (forall t e, List.In t stock_tickers -> verdict_of gw t <> Aborted e) /\
  rows = with_suggested (kept_rows gw stock_tickers) (investment_amount / 5)%float.
Proof.
  intros Hres.
  assert (Hok : forall t e, List.In t stock_tickers -> verdict_of gw t <> Aborted e).
  { intros t e Hin Hv.
    destruct (fetch_quotes_abort gw _ t e Hin Hv [] self) as [e' [l Hr]].
    rewrite suggest_stocks_run, Hr in Hres. discriminate Hres. }
  split; [exact Hok |].
  rewrite suggest_stocks_run, (fetch_quotes_ok gw stock_tickers Hok stock_tickers_NoDup)
    in Hres by (intros t _ []).
  injection Hres as <-. reflexivity.
Qed.

(** The rows of the returned table, ticker by ticker. *)
Lemma with_suggested_In (sd : list (string * StockRow)) (value : float) (row : SuggestionRow) :
  List.In row (with_suggested sd value) <->
  List.In (Ticker row, Quote row) sd /\ Suggested_Investment row = value.
Proof.
  unfold with_suggested. rewrite List.in_map_iff. split.
  - intros [[t r] [<- Hin]]. simpl. split; [exact Hin | reflexivity].
  - intros [Hin Hv]. exists (Ticker row, Quote row). split; [| exact Hin].
    destruct row; simpl in *. subst. reflexivity.
Qed.

(** ** Claims on the stock suggestions *)


(** C7, as the code has it.  When every fetch answers with a quote, and the
    quotes that have a price have the other four fields, [suggest_stocks]
    returns a table, raises nothing and emits no notice: the five fetches are
    the only effects.  A ticker of the list is in the table exactly when its
    quote has a price; the tickers keep the order of the list; each row shows
    the fields of its own quote.  Without that condition on the other
    tickers the call may return [None] instead. *)
Theorem unpriced_tickers_omitted
    (gw : Gateways) (investment_amount : float) (years : Z) (self : Bot) :
  (forall t, List.In t stock_tickers -> well_formed_quote gw t) ->
  exists rows,
    suggest_stocks gw investment_amount years self
    = (Return (Some rows), self, map EvTickerInfo stock_tickers) /\
    (exists keep, map Ticker rows = List.filter keep stock_tickers) /\
    (forall t info, List.In t stock_tickers -> yf_info gw t = inr info ->
       (priced info <-> List.In t (map Ticker rows))) /\
    (forall row, List.In row rows -> row_matches_quote gw row).
Proof.
  intros Hwf.
  assert (Hok : forall t e, List.In t stock_tickers -> verdict_of gw t <> Aborted e).
  { intros t e Hin. exact (well_formed_verdict gw t (Hwf t Hin) e). }
  rewrite suggest_stocks_run,
    (fetch_quotes_ok gw stock_tickers Hok stock_tickers_NoDup) by (intros t _ []).
  change ([] ++ kept_rows gw stock_tickers) with (kept_rows gw stock_tickers).
  eexists. split; [reflexivity |].
  assert (Hkeys : map Ticker (with_suggested (kept_rows gw stock_tickers)
                                (investment_amount / 5)%float)
                  = map fst (kept_rows gw stock_tickers)).
  { unfold with_suggested. rewrite List.map_map. reflexivity. }
  split; [eexists; rewrite Hkeys; apply kept_rows_keys |].
  split.
  - intros t info Hin Hinfo. rewrite Hkeys, priced_truthy. split.
    + intros Htruthy.
      destruct (verdict_of gw t) as [| row | e] eqn:Hv.
      * exfalso. unfold verdict_of in Hv. rewrite Hinfo, Htruthy in Hv.
        destruct (row_of info); discriminate.
      * exact (List.in_map fst _ _ (kept_rows_intro gw stock_tickers t row Hin Hv)).
      * exfalso. exact (Hok t e Hin Hv).
    + intros Hkept. apply List.in_map_iff in Hkept.
      destruct Hkept as [[t0 row] [Ht Hkept]]. simpl in Ht. subst t0.
      apply kept_rows_In, verdict_Kept_inv in Hkept.
      destruct Hkept as [info0 [Hinfo0 [Htruthy _]]].
      rewrite Hinfo in Hinfo0. injection Hinfo0 as <-. exact Htruthy.
  - intros row Hin. apply with_suggested_In in Hin. destruct Hin as [Hin _].
    apply kept_rows_In, verdict_Kept_inv in Hin.
    destruct Hin as [info [Hinfo [Htruthy Hrow]]]. apply row_of_inr in Hrow.
    destruct Hrow as [Hcur Hrest].
    exists info. split; [exact Hinfo |]. split; [| exact Hrest].
    rewrite Hcur. apply priced_entry, priced_truthy. exact Htruthy.
Qed.

(** C9.  The argument [years] has no influence on [suggest_stocks]: with the
    same gateways, amount and bot, any two values of [years] give the same
    result, the same state and the same effects. *)
Theorem years_is_ignored
    (gw : Gateways) (investment_amount : float) (years1 years2 : Z) (self : Bot) :
  suggest_stocks gw investment_amount years1 self
  = suggest_stocks gw investment_amount years2 self.
Proof. reflexivity. Qed.

(** C10.  When the quote of a ticker of the list has a price and lacks one
    of the fields short name, market cap, 52-week high, 52-week low, the
    whole call returns [None]: no row of any ticker is returned, and the
    exception that ended the loop is reported through [st.error]. *)
Theorem missing_field_aborts_whole_call
    (gw : Gateways) (investment_amount : float) (years : Z) (self : Bot)
    (t : string) (info : gmap string pyval) :
  List.In t stock_tickers ->
  yf_info gw t = inr info ->
  truthy (dict_get info "currentPrice") = true ->
  ~ has_other_fields info ->
  exists e l,
    suggest_stocks gw investment_amount years self
    = (Return None, self, l ++ [EvStError ("Error fetching stock data: " ++ exn_str e)]).
Proof.
  intros Hin Hinfo Hprice Hmissing.
  assert (Hv : exists e, verdict_of gw t = Aborted e).
  { unfold verdict_of. rewrite Hinfo, Hprice.
    destruct (row_of info) as [e | row] eqn:Hrow; [eauto |].
    exfalso. apply Hmissing. apply row_of_fields. eauto. }
  destruct Hv as [e Hv].
  destruct (fetch_quotes_abort gw _ t e Hin Hv [] self) as [e' [l Hr]].
  rewrite suggest_stocks_run, Hr. eauto.
Qed.

(** ** The inflation fetch *)

Lemma get_current_inflation_run (gw : Gateways) (self : Bot) :
  get_current_inflation gw self = (Return (fetched_rate gw), self, inflation_log gw).
Proof.
  unfold get_current_inflation, fetched_rate, inflation_log,
    try_except, bind, emit, st_error, ret, raise.
  destruct (alpha_vantage gw (inflation_url gw)); reflexivity.
Qed.

(** A rate that compares equal to zero has been replaced by [0]. *)
Lemma or_zero_is_zero (x : option float) :
  (or_zero x =? 0)%float = true -> or_zero x = 0%float.
Proof.
  destruct x as [r |]; [| reflexivity]. unfold or_zero.
  destruct (r =? 0)%float eqn:E; [reflexivity | congruence].
Qed.

(** ** Integers as floats *)

Lemma fexp_53 (e : Z) : (-52 <= e)%Z -> fexp prec emax (53 + e) = e.
Proof. unfold fexp, SpecFloat.emin, prec, emax. lia. Qed.

Lemma binary_round_aux_canonical (s : bool) (m : positive) (e : Z) :
  Zpos (digits2_pos m) = 53%Z -> (-52 <= e <= 0)%Z ->
  binary_round_aux prec emax s (Zpos m) e loc_Exact = S754_finite s m e.
Proof.
  intros Hd He. unfold binary_round_aux, shr_fexp.
  cbn [Zdigits2]. rewrite Hd, fexp_53, Z.sub_diag by lia.
  cbn [shr shr_record_of_loc shr_m loc_of_shr_record round_nearest_even Zdigits2].
  rewrite Hd, fexp_53, Z.sub_diag by lia.
  cbn [shr shr_record_of_loc shr_m].
  replace (e <=? emax - prec)%Z with true; [reflexivity |].
  symmetry. apply Z.leb_le. unfold emax, prec. lia.
Qed.

(** An integer of at most 53 bits is a float as it stands. *)
Lemma binary_round_small (s : bool) (m : positive) :
  (Zpos (digits2_pos m) <= 53)%Z ->
  exists m' e',
    binary_round prec emax s m 0 = S754_finite s m' e' /\
    bounded prec emax m' e' = true.
Proof.
  intros Hd. unfold binary_round.
  assert (Hf : fexp prec emax (Zpos (digits2_pos m) + 0) = (Zpos (digits2_pos m) - 53)%Z).
  { unfold fexp, SpecFloat.emin, prec, emax. lia. }
  rewrite Hf. unfold shl_align.
  destruct (Zpos (digits2_pos m) - 53 - 0)%Z as [| k | k] eqn:Hk; [| lia |].
  - exists m, 0%Z. rewrite binary_round_aux_canonical by lia.
    split; [reflexivity |].
    unfold bounded, canonical_mantissa.
    replace (Zpos (digits2_pos m) + 0)%Z with (53 + 0)%Z by lia.
    rewrite fexp_53 by lia. reflexivity.
  - assert (Hs : Zpos (digits2_pos (PosDef.Pos.iter xO m k))
                 = (Zpos (digits2_pos m) + Zpos k)%Z) by apply digits2_pos_shift.
    exists (PosDef.Pos.iter xO m k), (Zpos (digits2_pos m) - 53)%Z.
    rewrite binary_round_aux_canonical by lia.
    split; [reflexivity |].
    unfold bounded, canonical_mantissa. rewrite Hs.
    replace (Zpos (digits2_pos m) + Zpos k + (Zpos (digits2_pos m) - 53))%Z
      with (53 + (Zpos (digits2_pos m) - 53))%Z by lia.
    rewrite fexp_53 by lia. rewrite Z.eqb_refl. cbn [andb].
    apply Z.leb_le. unfold emax, prec. lia.
Qed.

Lemma digits2_pos_bound (m : positive) (n : nat) :
  (Zpos m < 2 ^ Z.of_nat n)%Z -> (Zpos (digits2_pos m) <= Z.of_nat n)%Z.
Proof.
  revert m. induction n as [| n IH]; intros m H.
  - simpl in H. lia.
  - rewrite Nat2Z.inj_succ, Z.pow_succ_r in H by lia.
    destruct m as [m | m |]; simpl digits2_pos.
    + specialize (IH m). lia.
    + specialize (IH m). lia.
    + lia.
Qed.

Lemma float_of_Z_finite (z : Z) :
  (Z.abs z < 2 ^ 53)%Z -> is_infinity (float_of_Z z) = false.
Proof.
  intros Hz. unfold float_of_Z, is_infinity.
  rewrite FloatAxioms.eqb_spec, FloatAxioms.abs_spec.
  destruct z as [| m | m]; [reflexivity | |]; unfold binary_normalize.
  - destruct (binary_round_small false m) as [m' [e' [-> Hb]]].
    { apply (digits2_pos_bound m 53). exact Hz. }
    rewrite Prim2SF_SF2Prim by exact Hb. reflexivity.
  - destruct (binary_round_small true m) as [m' [e' [-> Hb]]].
    { apply (digits2_pos_bound m 53). exact Hz. }
    rewrite Prim2SF_SF2Prim by exact Hb. reflexivity.
Qed.

(** The integers a number input of the form can hold, those below [2^53] in
    absolute value, convert without [OverflowError]. *)
Lemma int_to_float_small (z : Z) :
  (Z.abs z < 2 ^ 53)%Z -> int_to_float z = inr (float_of_Z z).
Proof.
  intros Hz. unfold int_to_float. rewrite (float_of_Z_finite z Hz). reflexivity.
Qed.

Lemma int_to_float_error (z : Z) (e : exn) :
  int_to_float z = inl e -> exn_class e = "OverflowError".
Proof.
  unfold int_to_float. destruct (is_infinity (float_of_Z z)); [| discriminate].
  intros H. injection H as <-. reflexivity.
Qed.

(** ** A float to an integer power *)

Lemma float_pow_zero_exponent (pow : float -> float -> float) (iv : float) :
  float_pow pow iv 0 = inr 1%float.
Proof. reflexivity. Qed.

(** [1.0 ** w] is [1.0], whatever [pow] of the C library does. *)
Lemma float_pow_base_one (pow : float -> float -> float) (w : Z) (iw : float) :
  int_to_float w = inr iw -> float_pow pow 1 w = inr 1%float.
Proof.
  intros Hw. unfold float_pow. rewrite Hw.
  destruct (w =? 0)%Z; reflexivity.
Qed.

(** The exceptions of [**]: the conversion of the exponent, a zero base with
    a negative exponent, a result out of range. *)
Lemma float_pow_error (pow : float -> float -> float) (iv : float) (w : Z) (e : exn) :
  float_pow pow iv w = inl e ->
  (int_to_float w = inl e /\ exn_class e = "OverflowError") \/
  ((iv =? 0)%float = true /\ (w < 0)%Z /\
   e = ZeroDivisionError "0.0 cannot be raised to a negative power") \/
  (exists iw, int_to_float w = inr iw /\ (iv =? 0)%float = false /\
     is_infinity (pow (abs iv) iw) = true /\
     e = OverflowError "(34, 'Numerical result out of range')").
Proof.
  unfold float_pow.
  destruct (int_to_float w) as [e0 | iw] eqn:Hw.
  - intros H. injection H as <-. left. split; [reflexivity |].
    exact (int_to_float_error w e0 Hw).
  - destruct (w =? 0)%Z; [discriminate |].
    destruct (is_nan iv); [discriminate |].
    destruct (is_infinity iv); [discriminate |].
    destruct (iv =? 0)%float eqn:Hz.
    + destruct (w <? 0)%Z eqn:Hneg; [| discriminate].
      intros H. injection H as <-. right. left.
      apply Z.ltb_lt in Hneg. auto.
    + destruct (abs iv =? 1)%float; [discriminate |].
      destruct (is_infinity (pow (abs iv) iw)) eqn:Hinf; [| discriminate].
      intros H. injection H as <-. right. right. exists iw. auto.
Qed.

Lemma float_pow_error_class (pow : float -> float -> float) (iv : float) (w : Z) (e : exn) :
  float_pow pow iv w = inl e ->
  exn_class e = "OverflowError" \/
  (exn_class e = "ZeroDivisionError" /\ (iv =? 0)%float = true /\ (w < 0)%Z).
Proof.
  intros H. destruct (float_pow_error pow iv w e H)
    as [[_ Hc] | [[Hz [Hneg ->]] | [iw [_ [_ [_ ->]]]]]].
  - left. exact Hc.
  - right. auto.
  - left. reflexivity.
Qed.

(** ** The retirement projection *)

Lemma project_retirement_savings_cases (gw : Gateways) (self : Bot) :
  project_retirement_savings gw self =
  (match retirement_age (retirement_plan self), current_age (retirement_plan self) with
   | Some ra, Some ca =>
       match float_pow (libm_pow gw)
               (1 + or_zero (fetched_rate gw) / 100)%float (ra - ca) with
       | inl e => Raise e
       | inr growth =>
           match savings_goal (retirement_plan self) with
           | Some g =>
               Return {| inflation_rate := or_zero (fetched_rate gw);
                         adjusted_goal := (g * growth)%float;
                         years_to_retirement := (ra - ca)%Z |}
           | None => Raise (unsupported_operand "*" "NoneType" "float")
           end
       end
   | _, _ =>
       Raise (unsupported_operand "-"
                (age_type (retirement_age (retirement_plan self)))
                (age_type (current_age (retirement_plan self))))
   end,
   self, inflation_log gw).
Proof.
  unfold project_retirement_savings. unfold bind at 1.
  rewrite get_current_inflation_run.
  unfold bind, get_self, py_sub, py_pow, py_mul, lift_sum, ret, raise.
  destruct (retirement_age (retirement_plan self)) as [ra |],
           (current_age (retirement_plan self)) as [ca |];
    cbn beta iota; try (rewrite List.app_nil_r; reflexivity).
  destruct (float_pow _ _ _) as [e | growth]; cbn beta iota;
    [rewrite !List.app_nil_r; reflexivity |].
  destruct (savings_goal (retirement_plan self)); cbn beta iota;
    rewrite !List.app_nil_r; reflexivity.
Qed.

Lemma project_retirement_savings_no_age (gw : Gateways) (self : Bot) :
  current_age (retirement_plan self) = None \/
  retirement_age (retirement_plan self) = None ->
  project_retirement_savings gw self =
  (Raise (unsupported_operand "-"
            (age_type (retirement_age (retirement_plan self)))
            (age_type (current_age (retirement_plan self)))),
   self, inflation_log gw).
Proof.
  intros Hnone. rewrite project_retirement_savings_cases.
  destruct (retirement_age (retirement_plan self)) as [ra |],
           (current_age (retirement_plan self)) as [ca |]; try reflexivity.
  destruct Hnone; discriminate.
Qed.

Lemma project_depends_on_plan (gw : Gateways) (s1 s2 : Bot) :
  retirement_plan s1 = retirement_plan s2 ->
  result_of (project_retirement_savings gw s1) = result_of (project_retirement_savings gw s2)
  /\ log_of (project_retirement_savings gw s1) = log_of (project_retirement_savings gw s2).
Proof.
  intros Hplan. rewrite !project_retirement_savings_cases, Hplan.
  split; reflexivity.
Qed.

(** Where the growth factor is [1.0]: the goal comes back as it is. *)
Lemma project_retirement_savings_base_one
    (gw : Gateways) (self : Bot) (ca ra : Z) (g : float) :
  current_age (retirement_plan self) = Some ca ->
  retirement_age (retirement_plan self) = Some ra ->
  savings_goal (retirement_plan self) = Some g ->
  (Z.abs (ra - ca) < 2 ^ 53)%Z ->
  (or_zero (fetched_rate gw) =? 0)%float = true ->
  project_retirement_savings gw self =
  (Return {| inflation_rate := 0%float;
             adjusted_goal := g;
             years_to_retirement := (ra - ca)%Z |},
   self, inflation_log gw).
Proof.
  intros Hca Hra Hg Hsmall Hzero.
  rewrite project_retirement_savings_cases, Hca, Hra, Hg.
  rewrite (or_zero_is_zero _ Hzero).
  change (1 + 0 / 100)%float with 1%float.
  rewrite (float_pow_base_one _ _ _ (int_to_float_small _ Hsmall)).
  rewrite float_mul_one. reflexivity.
Qed.

(** ** Claims on the retirement projection *)

(** C3, as the code has it.  When [current_age] or [retirement_age] is still
    [None], as both are before [set_retirement_plan] is called,
    [project_retirement_savings] raises the [TypeError] of the subtraction
    [retirement_age - current_age], after the inflation fetch and its
    notices, and leaves the bot as it was.  The exception is not of a class
    [PlanIncomplete]: the method does not look at the plan before it
    computes. *)
Theorem projection_without_ages_raises_TypeError (gw : Gateways) (self : Bot) :
  current_age (retirement_plan self) = None \/
  retirement_age (retirement_plan self) = None ->
  exists e,
    project_retirement_savings gw self = (Raise e, self, inflation_log gw) /\
    exn_class e = "TypeError" /\
    exn_str e = ("unsupported operand type(s) for -: '"
                 ++ age_type (retirement_age (retirement_plan self)) ++ "' and '"
                 ++ age_type (current_age (retirement_plan self)) ++ "'")%string /\
    ~ fails_with "PlanIncomplete" (project_retirement_savings gw self).
Proof.
  intros Hnone. rewrite (project_retirement_savings_no_age gw self Hnone).
  eexists. split; [reflexivity |]. split; [reflexivity |]. split; [reflexivity |].
  intros [e [He Hcls]]. unfold result_of in He. simpl in He.
  injection He as <-. discriminate Hcls.
Qed.


(** ** The advice request *)

Lemma generate_financial_advice_run (gw : Gateways) (prompt : string) (self : Bot) :
  let messages := advice_messages (fetched_rate gw) prompt in
  generate_financial_advice gw prompt self =
  (match chat_completion gw "gpt-4" messages with
   | inl e => Raise e
   | inr response =>
       match choices response with
       | c :: _ => Return (content (choice_message c))
       | [] => Raise (IndexError "list index out of range")
       end
   end,
   self,
   inflation_log gw ++ [EvChatCompletion "gpt-4" messages]).
Proof.
  intros messages.
  unfold generate_financial_advice. unfold bind at 1.
  rewrite get_current_inflation_run. fold messages.
  unfold bind, emit, lift_sum, ret, raise.
  destruct (chat_completion gw "gpt-4" messages) as [e | response]; simpl; [reflexivity |].
  destruct (choices response); reflexivity.
Qed.

(** ** Claims on the advice request *)

(** C5.  When the chat-completion call fails with an exception,
    [generate_financial_advice] ends with that same exception, raised to the
    caller: there is no substitute text.  The bot's expense table and
    retirement plan are the ones from before the call. *)
Theorem advisor_failure_propagates
    (gw : Gateways) (prompt : string) (self : Bot) (e : exn) :
  chat_completion gw "gpt-4" (advice_messages (fetched_rate gw) prompt) = inl e ->
  result_of (generate_financial_advice gw prompt self) = Raise e /\
  state_of (generate_financial_advice gw prompt self) = self /\
  expenses (state_of (generate_financial_advice gw prompt self)) = expenses self /\
  retirement_plan (state_of (generate_financial_advice gw prompt self))
  = retirement_plan self.
Proof.
  intros Hfail. rewrite generate_financial_advice_run. cbv zeta.
  rewrite Hfail. repeat split.
Qed.

(** C6, as the code has it.  [generate_financial_advice] first requests the
    inflation rate, then makes one chat-completion call to the model
    ["gpt-4"] with three messages: the system message
    ["You are a financial advisor bot."], an assistant message with the
    inflation context, and the user message with the prompt.  The inflation
    context quotes the rate with two decimals when the request gave one, and
    is the sentence ["I couldn't retrieve the current inflation rate. Proceed
    without inflation adjustment."] when it did not.  The result is the
    content of the first choice of the reply, unchanged; the bot is not
    modified. *)
Theorem advice_request_shape (gw : Gateways) (prompt : string) (self : Bot) :
  let context :=
    match fetched_rate gw with
    | Some rate =>
        ("The current annual inflation rate is " ++ format_2f rate
           ++ "%. Please consider this in your calculations.")%string
    | None =>
        "I couldn't retrieve the current inflation rate. Proceed without inflation adjustment."
    end in
  let messages :=
    [ {| role := "system"; content := "You are a financial advisor bot." |};
      {| role := "assistant"; content := context |};
      {| role := "user"; content := prompt |} ] in
  log_of (generate_financial_advice gw prompt self)
  = inflation_log gw ++ [EvChatCompletion "gpt-4" messages] /\
  (exists notices, inflation_log gw = EvRequestsGet (inflation_url gw) :: notices /\
     forall ev, List.In ev notices -> exists msg, ev = EvStError msg) /\
  state_of (generate_financial_advice gw prompt self) = self /\
  result_of (generate_financial_advice gw prompt self)
  = match chat_completion gw "gpt-4" messages with
    | inl e => Raise e
    | inr response =>
        match choices response with
        | c :: _ => Return (content (choice_message c))
        | [] => Raise (IndexError "list index out of range")
        end
    end.
Proof.
  intros context messages. rewrite generate_financial_advice_run. cbv zeta.
  change (advice_messages (fetched_rate gw) prompt) with messages.
  split; [reflexivity |]. split; [| split; reflexivity].
  unfold inflation_log. eexists. split; [reflexivity |].
  intros ev Hin. destruct (alpha_vantage gw (inflation_url gw)); simpl in Hin;
    try tauto; destruct Hin as [<- | []]; eauto.
Qed.

(** * The claims at concrete inputs *)

(** ** Expense ledger *)

Example summary_sample :
  result_of (get_expense_summary (gw_rate 3) (state_of (add_all sample_calls init)))
  = Return [("Groceries", 80%float); ("Rent", 1200%float)].
Proof. vm_compute. reflexivity. Qed.


(** The same with 0.1 under B, then 0.3 and 0.2 under A: the totals 0.5 and
    0.1 add up to 0.6, and the three amounts, added in the order of entry,
    to 0.6000000000000001. *)
Example totals_of_tenths :
  (forall gw, List.In gw [gw_rate 3; gw_down] ->
     result_of (get_expense_summary gw (state_of (add_all calls_tenths init)))
     = Return [("A", 0.5%float); ("B", 0.1%float)]) /\
  sum_amounts [0.5%float; 0.1%float] = 0.6%float /\
  sum_amounts (map snd calls_tenths) = 0.6000000000000001%float.
Proof.
  split.
  - intros gw [<- | [<- | []]]; vm_compute; reflexivity.
  - split; vm_compute; reflexivity.
Qed.

(** 0.1 and 0.2 under one category: the total is 0.30000000000000004, more
    than the sum of the two amounts. *)
Example total_of_one_category :
  (forall gw, List.In gw [gw_rate 3; gw_down] ->
     result_of (get_expense_summary gw (state_of (add_all calls_one_category init)))
     = Return [("A", 0.30000000000000004%float)]) /\
  (exact_value 0.1 + exact_value 0.2 < exact_value 0.30000000000000004)%Q.
Proof.
  split.
  - intros gw [<- | [<- | []]]; vm_compute; reflexivity.
  - vm_compute. reflexivity.
Qed.

Lemma summary_of_empty_ledger_witness :
  get_expense_summary gw_down init = (Return [], init, []).
Proof. apply (summary_of_empty_ledger gw_down init). reflexivity. Defined.

(** ** Stock suggestions *)

Example rows_down_tickers : map Ticker rows_down = ["AAPL"; "AMZN"; "TSLA"].
Proof. reflexivity. Qed.

Example rows_down_shares :
  map Suggested_Investment rows_down = [200%float; 200%float; 200%float].
Proof. reflexivity. Qed.

Lemma gw_down_well_formed (t : string) :
  List.In t stock_tickers -> well_formed_quote gw_down t.
Proof.
  unfold stock_tickers. simpl.
  intros [<- | [<- | [<- | [<- | [<- | []]]]]];
    (eexists; split; [reflexivity |]);
    try solve [intros Hprice; vm_compute in Hprice; contradiction];
    intros _; unfold has_other_fields; repeat split; eexists; vm_compute; reflexivity.
Defined.



(** An amount a fifth of which is a float comes back whole. *)
Example five_shares_of_1000 :
  exists rows,
    result_of (suggest_stocks (gw_rate 3) 1000 10 init) = Return (Some rows) /\
    map Ticker rows = stock_tickers /\
    sum_amounts (map Suggested_Investment rows) = 1000%float.
Proof.
  eexists. split; [vm_compute; reflexivity |].
  split; [reflexivity |]. vm_compute. reflexivity.
Qed.

Lemma unpriced_tickers_omitted_witness :
  exists rows,
    suggest_stocks gw_down 1000 10 init
    = (Return (Some rows), init, map EvTickerInfo stock_tickers) /\
    (exists keep, map Ticker rows = List.filter keep stock_tickers) /\
    (forall t info, List.In t stock_tickers -> yf_info gw_down t = inr info ->
       (priced info <-> List.In t (map Ticker rows))) /\
    (forall row, List.In row rows -> row_matches_quote gw_down row).
Proof.
  apply (unpriced_tickers_omitted gw_down 1000 10 init).
  exact gw_down_well_formed.
Defined.

Example unpriced_tickers_omitted_sample :
  suggest_stocks gw_down 1000 10 init
  = (Return (Some rows_down), init, map EvTickerInfo stock_tickers) /\
  map Ticker rows_down = ["AAPL"; "AMZN"; "TSLA"].
Proof. split; [vm_compute; reflexivity | reflexivity]. Qed.

(** C7 as the claim states it fails when another ticker's quote is broken:
    MSFT has no price, AMZN has a price and no market cap, and the call
    returns no table at all and reports an error. *)
Lemma unpriced_ticker_next_to_broken_quote :
  yf_info gw_unpriced_and_broken "MSFT" = inr ∅ /\
  ~ priced (∅ : gmap string pyval) /\
  suggest_stocks gw_unpriced_and_broken 1000 10 init
  = (Return None, init,
     [EvTickerInfo "AAPL"; EvTickerInfo "MSFT"; EvTickerInfo "GOOGL"; EvTickerInfo "AMZN";
      EvStError "Error fetching stock data: 'marketCap'"]).
Proof.
  split; [reflexivity |]. split; [intros H; exact H |].
  vm_compute. reflexivity.
Qed.

Lemma missing_field_aborts_whole_call_witness :
  exists e l,
    suggest_stocks gw_no_cap 1000 10 init
    = (Return None, init, l ++ [EvStError ("Error fetching stock data: " ++ exn_str e)]).
Proof.
  apply (missing_field_aborts_whole_call gw_no_cap 1000 10 init
           "AMZN" (delete "marketCap" (quote "AMZN" 180))).
  - unfold stock_tickers. simpl. tauto.
  - reflexivity.
  - vm_compute. reflexivity.
  - intros [_ [[v Hv] _]]. vm_compute in Hv. discriminate Hv.
Defined.

Example missing_field_sample :
  suggest_stocks gw_no_cap 1000 10 init
  = (Return None, init,
     [EvTickerInfo "AAPL"; EvTickerInfo "MSFT"; EvTickerInfo "GOOGL"; EvTickerInfo "AMZN";
      EvStError "Error fetching stock data: 'marketCap'"]).
Proof. vm_compute. reflexivity. Qed.

(** ** Retirement projection *)

(** C3 as the claim states it fails on a fresh bot: the call ends with a
    [TypeError], not with an exception of class [PlanIncomplete]. *)
Lemma projection_before_plan_not_PlanIncomplete :
  fails_with "TypeError" (project_retirement_savings gw_down init) /\
  ~ fails_with "PlanIncomplete" (project_retirement_savings gw_down init).
Proof.
  split.
  - eexists. split; [vm_compute; reflexivity | reflexivity].
  - intros [e [He Hcls]]. vm_compute in He. injection He as <-.
    discriminate Hcls.
Qed.

Lemma projection_without_ages_raises_TypeError_witness :
  exists e,
    project_retirement_savings gw_down init = (Raise e, init, inflation_log gw_down) /\
    exn_class e = "TypeError" /\
    exn_str e = ("unsupported operand type(s) for -: '"
                 ++ age_type (retirement_age (retirement_plan init)) ++ "' and '"
                 ++ age_type (current_age (retirement_plan init)) ++ "'")%string /\
    ~ fails_with "PlanIncomplete" (project_retirement_savings gw_down init).
Proof.
  apply (projection_without_ages_raises_TypeError gw_down init).
  left. reflexivity.
Defined.

Example projection_before_plan_sample :
  project_retirement_savings gw_down init
  = (Raise (Exn "TypeError" "unsupported operand type(s) for -: 'NoneType' and 'NoneType'"),
     init,
     [EvRequestsGet "https://www.alphavantage.co/query?function=INFLATION&apikey=None";
      EvStError "Error fetching inflation data: no route to host"]).
Proof. vm_compute. reflexivity. Qed.

(** The plan entries the projection does not read may stay unset. *)
Example projection_reads_three_entries :
  exists p,
    result_of
      (project_retirement_savings (gw_rate 3)
         (state_of (set_retirement_plan (Some 30%Z) (Some 65%Z) None None
                      (Some 1000000%float) init)))
    = Return p /\ years_to_retirement p = 35%Z.
Proof. eexists. split; [vm_compute; reflexivity | reflexivity]. Qed.


(** A savings goal of 0, which the form allows, stays 0 at every rate. *)
Example zero_goal_not_strictly_increasing :
  exists p1 p2,
    result_of (project_retirement_savings (gw_rate 1) (bot_with_goal 0)) = Return p1 /\
    result_of (project_retirement_savings (gw_rate 2) (bot_with_goal 0)) = Return p2 /\
    (inflation_rate p1 <? inflation_rate p2)%float = true /\
    (adjusted_goal p1 <? adjusted_goal p2)%float = false.
Proof.
  do 2 eexists. split; [vm_compute; reflexivity |]. split; [vm_compute; reflexivity |].
  split; reflexivity.
Qed.

(** Three hundred years at 1000 percent: the power is out of range. *)
Example projection_overflow :
  result_of (project_retirement_savings (gw_rate 1000) (bot_with_ages 0 300))
  = Raise (OverflowError "(34, 'Numerical result out of range')").
Proof. vm_compute. reflexivity. Qed.


(** [set_retirement_plan(30, 65, 50000, 500, 1000000)] at 3 percent: 35
    years, and an adjusted goal that prints as 2813862.45. *)
Example projection_sample :
  exists p,
    result_of (project_retirement_savings (gw_rate 3) (bot_with_goal 1000000)) = Return p /\
    years_to_retirement p = 35%Z /\
    format_2f (adjusted_goal p) = "2813862.45".
Proof.
  eexists. split; [vm_compute; reflexivity |]. split; [reflexivity |].
  vm_compute. reflexivity.
Qed.

(** ** Advice request *)

Lemma advisor_failure_propagates_witness :
  result_of (generate_financial_advice gw_down "How much should I save?" init)
  = Raise (Exn "APIConnectionError" "Error communicating with OpenAI") /\
  state_of (generate_financial_advice gw_down "How much should I save?" init) = init /\
  expenses (state_of (generate_financial_advice gw_down "How much should I save?" init))
  = expenses init /\
  retirement_plan (state_of (generate_financial_advice gw_down "How much should I save?" init))
  = retirement_plan init.
Proof.
  apply (advisor_failure_propagates gw_down "How much should I save?" init).
  reflexivity.
Defined.

(** C6 as the claim states it fails on the text of the fallback: when the
    inflation request fails, no chat-completion call carries an assistant
    message ["rate unavailable, proceed without adjustment"]. *)
Lemma advice_fallback_text_differs :
  fetched_rate gw_down = None /\
  ~ exists model persona,
      List.In
        (EvChatCompletion model
           [ {| role := "system"; content := persona |};
             {| role := "assistant";
                content := "rate unavailable, proceed without adjustment" |};
             {| role := "user"; content := "How much should I save?" |} ])
        (log_of (generate_financial_advice gw_down "How much should I save?" init)).
Proof.
  split; [reflexivity |].
  intros [model [persona Hin]]. vm_compute in Hin.
  destruct Hin as [H | [H | [H | []]]]; discriminate H.
Qed.

Example advice_sample :
  generate_financial_advice (gw_rate 3.14159) "How much should I save?" init
  = (Return "Diversify.", init,
     [EvRequestsGet "https://www.alphavantage.co/query?function=INFLATION&apikey=demo";
      EvChatCompletion "gpt-4"
        [ {| role := "system"; content := "You are a financial advisor bot." |};
          {| role := "assistant";
             content := "The current annual inflation rate is 3.14%. Please consider this in your calculations." |};
          {| role := "user"; content := "How much should I save?" |} ]]).
Proof. vm_compute. reflexivity. Qed.

(** * Further properties of the class *)

(** ** The inflation fetch never fails *)

(** X1.  [get_current_inflation] catches everything: it always returns,
    leaves the bot alone and makes exactly one request.  It hands back a rate
    exactly when the request gave one, and then emits no notice; otherwise it
    hands back [None] and emits exactly one [st.error] notice. *)
Theorem inflation_fetch_never_raises (gw : Gateways) (self : Bot) :
  exists fetched notices,
    get_current_inflation gw self
    = (Return fetched, self, EvRequestsGet (inflation_url gw) :: notices) /\
    (forall rate, fetched = Some rate <->
                  alpha_vantage gw (inflation_url gw) = InflationValue rate) /\
    (fetched = None -> exists msg, notices = [EvStError msg]) /\
    (fetched <> None -> notices = []).
Proof.
  rewrite get_current_inflation_run. unfold fetched_rate, inflation_log.
  do 2 eexists. split; [reflexivity |].
  destruct (alpha_vantage gw (inflation_url gw)) as [e | | rate0].
  - split; [intros rate; split; discriminate |].
    split; [eauto | intros H; exfalso; apply H; reflexivity].
  - split; [intros rate; split; discriminate |].
    split; [eauto | intros H; exfalso; apply H; reflexivity].
  - split; [intros rate; split; congruence |].
    split; [discriminate | reflexivity].
Qed.

(** ** The plan and the ledger are kept apart *)

(** X2.  [set_retirement_plan] replaces the whole plan: of two calls in a
    row only the second one is remembered, and the result, the state and the
    effects are those of the second call alone. *)
Theorem last_plan_wins
    (a1 r1 a2 r2 : option Z) (s1 m1 g1 s2 m2 g2 : option float) (self : Bot) :
  (set_retirement_plan a1 r1 s1 m1 g1 ;;; set_retirement_plan a2 r2 s2 m2 g2) self
  = set_retirement_plan a2 r2 s2 m2 g2 self.
Proof. reflexivity. Qed.

(** X3.  Recording expenses and planning retirement do not interfere: the
    summary of the expenses is the same before and after
    [set_retirement_plan], and the projection (its result and its effects) is
    the same before and after any sequence of [add_expense] calls. *)
Theorem ledger_and_plan_independent
    (gw : Gateways) (self : Bot) (calls : list (string * string * float))
    (a r : option Z) (s m g : option float) :
  result_of (get_expense_summary gw (state_of (set_retirement_plan a r s m g self)))
  = result_of (get_expense_summary gw self) /\
  result_of (project_retirement_savings gw (state_of (add_all calls self)))
  = result_of (project_retirement_savings gw self) /\
  log_of (project_retirement_savings gw (state_of (add_all calls self)))
  = log_of (project_retirement_savings gw self).
Proof.
  split; [reflexivity |].
  apply project_depends_on_plan. rewrite add_all_run. reflexivity.
Qed.

(** ** The summary is ordered; the order of entry shows only inside a category *)

(** X4.  Whatever the bot holds, [get_expense_summary] returns without
    raising, without effects and without changing the bot, and the rows of
    the summary come in strictly increasing order of category name. *)
Theorem summary_sorted_by_category (gw : Gateways) (self : Bot) :
  exists summary,
    get_expense_summary gw self = (Return summary, self, []) /\
    StronglySorted str_lt (map fst summary).
Proof.
  exists (groupby_sum (group_sum gw) (expenses self)). split; [reflexivity |].
  rewrite groupby_sum_keys. exact (proj1 (groups_spec (expenses self))).
Qed.

(** X5.  The summary has no row exactly when the bot holds no expense. *)
Theorem summary_empty_iff_no_expense (gw : Gateways) (self : Bot) :
  result_of (get_expense_summary gw self) = Return [] <-> expenses self = [].
Proof.
  change (result_of (get_expense_summary gw self))
    with (Return (groupby_sum (group_sum gw) (expenses self))).
  destruct (groups_spec (expenses self)) as [_ [Hk _]].
  split.
  - intros H. injection H as H.
    apply (f_equal (map fst)) in H. rewrite groupby_sum_keys in H. simpl in H.
    rewrite H in Hk.
    destruct (expenses self) as [| row rest]; [reflexivity |].
    exfalso. apply (Hk (Category row)). left. reflexivity.
  - intros ->. reflexivity.
Qed.

Lemma sorted_keys_unique (l1 : list string) :
  forall l2,
    StronglySorted str_lt l1 -> StronglySorted str_lt l2 ->
    (forall x, List.In x l1 <-> List.In x l2) -> l1 = l2.
Proof.
  induction l1 as [| h1 t1 IH]; intros l2 Hs1 Hs2 Hin.
  - destruct l2 as [| h2 t2]; [reflexivity |].
    exfalso. apply (Hin h2). left. reflexivity.
  - destruct l2 as [| h2 t2]; [exfalso; apply (Hin h1); left; reflexivity |].
    inversion Hs1 as [| ? ? Hs1' HF1]; inversion Hs2 as [| ? ? Hs2' HF2]; subst.
    rewrite List.Forall_forall in HF1, HF2.
    assert (Hh : h1 = h2).
    { destruct (proj1 (Hin h1) (or_introl eq_refl)) as [E | Hin1]; [symmetry; exact E |].
      destruct (proj2 (Hin h2) (or_introl eq_refl)) as [E | Hin2]; [exact E |].
      exfalso. apply (str_lt_irrefl h1).
      exact (String_as_OT.lt_trans _ _ _ (HF1 _ Hin2) (HF2 _ Hin1)). }
    subst h2. f_equal. apply IH; [exact Hs1' | exact Hs2' |].
    intros x. split; intros Hx.
    + destruct (proj1 (Hin x) (or_intror Hx)) as [E | Hx2]; [| exact Hx2].
      subst x. exfalso. exact (str_lt_irrefl _ (HF1 _ Hx)).
    + destruct (proj2 (Hin x) (or_intror Hx)) as [E | Hx1]; [| exact Hx1].
      subst x. exfalso. exact (str_lt_irrefl _ (HF2 _ Hx)).
Qed.

(** X6.  Two sequences of [add_expense] calls that are permutations of
    each other give the same categories in the same order.  The total of a
    category is the same in both summaries when the expenses of that
    category were entered in the same order in both sequences: expenses of
    other categories may come before, between and after them.  A different
    order inside a category can change the last bits of its total. *)
Theorem summary_categories_independent_of_entry_order
    (gw : Gateways) (calls1 calls2 : list (string * string * float)) :
  Permutation calls1 calls2 ->
  exists summary1 summary2,
    result_of (get_expense_summary gw (state_of (add_all calls1 init))) = Return summary1 /\
    result_of (get_expense_summary gw (state_of (add_all calls2 init))) = Return summary2 /\
    map fst summary1 = map fst summary2 /\
    (forall c t1 t2,
       List.In (c, t1) summary1 -> List.In (c, t2) summary2 ->
       List.filter (fun call => String.eqb (snd (fst call)) c) calls1
       = List.filter (fun call => String.eqb (snd (fst call)) c) calls2 ->
       t1 = t2).
Proof.
  intros Hperm. rewrite !add_all_run. simpl.
  exists (groupby_sum (group_sum gw) (map expense_of_call calls1)),
         (groupby_sum (group_sum gw) (map expense_of_call calls2)).
  split; [reflexivity |]. split; [reflexivity |].
  assert (Hdf : Permutation (map expense_of_call calls1) (map expense_of_call calls2))
    by (apply Permutation_map; exact Hperm).
  destruct (groups_spec (map expense_of_call calls1)) as [Hs1 [Hk1 _]].
  destruct (groups_spec (map expense_of_call calls2)) as [Hs2 [Hk2 _]].
  split.
  - rewrite !groupby_sum_keys. apply sorted_keys_unique; [exact Hs1 | exact Hs2 |].
    intros c. rewrite Hk1, Hk2. split; apply Permutation_in.
    + apply Permutation_map. exact Hdf.
    + apply Permutation_map. apply Permutation_sym. exact Hdf.
  - intros c t1 t2 H1 H2 Hsame.
    apply groupby_sum_In in H1. apply groupby_sum_In in H2.
    destruct H1 as [_ ->]. destruct H2 as [_ ->].
    rewrite !category_values_calls, Hsame. reflexivity.
Qed.

(** ** The projection, case by case *)

(** A float that compares equal to zero is a zero. *)
Lemma float_zero_cases (x : float) :
  (x =? 0)%float = true -> is_nan x = false /\ is_infinity x = false.
Proof.
  unfold is_nan, is_infinity.
  rewrite !FloatAxioms.eqb_spec, FloatAxioms.abs_spec.
  change (Prim2SF 0) with (S754_zero false).
  change (Prim2SF infinity) with (S754_infinity false).
  destruct (Prim2SF x) as [s | s | | s m e]; simpl.
  - auto.
  - destruct s; discriminate.
  - discriminate.
  - destruct s; discriminate.
Qed.

Lemma float_pow_zero_base_negative
    (pow : float -> float -> float) (iv : float) (w : Z) :
  (iv =? 0)%float = true -> (w < 0)%Z -> (Z.abs w < 2 ^ 53)%Z ->
  float_pow pow iv w = inl (ZeroDivisionError "0.0 cannot be raised to a negative power").
Proof.
  intros Hz Hneg Hsmall. unfold float_pow.
  rewrite (int_to_float_small w Hsmall).
  destruct (float_zero_cases iv Hz) as [-> ->]. rewrite Hz.
  replace (w =? 0)%Z with false by (symmetry; apply Z.eqb_neq; lia).
  replace (w <? 0)%Z with true by (symmetry; apply Z.ltb_lt; lia).
  reflexivity.
Qed.

(** X7.  With both ages and the savings goal set, the projection fails
    only in the power [(1 + rate/100) ** (retirement_age - current_age)],
    and only in two ways: with [ZeroDivisionError], when the growth factor
    is zero (the rate is -100) and the retirement age is below the current
    age, and with [OverflowError], when the power is out of range.  Whenever
    the power is a float, a retirement age below the current age included,
    the projection returns the goal multiplied by it. *)
Theorem projection_fails_only_in_the_power
    (gw : Gateways) (self : Bot) (ca ra : Z) (g : float) :
  current_age (retirement_plan self) = Some ca ->
  retirement_age (retirement_plan self) = Some ra ->
  savings_goal (retirement_plan self) = Some g ->
  let base := (1 + or_zero (fetched_rate gw) / 100)%float in
  (forall e, result_of (project_retirement_savings gw self) = Raise e ->
     exn_class e = "OverflowError" \/
     (exn_class e = "ZeroDivisionError" /\ (base =? 0)%float = true /\ (ra < ca)%Z)) /\
  ((base =? 0)%float = true -> (ra < ca)%Z -> (Z.abs (ra - ca) < 2 ^ 53)%Z ->
   project_retirement_savings gw self
   = (Raise (ZeroDivisionError "0.0 cannot be raised to a negative power"),
      self, inflation_log gw)) /\
  (forall growth,
     float_pow (libm_pow gw) base (ra - ca) = inr growth ->
     project_retirement_savings gw self
     = (Return {| inflation_rate := or_zero (fetched_rate gw);
                  adjusted_goal := (g * growth)%float;
                  years_to_retirement := (ra - ca)%Z |},
        self, inflation_log gw)).
Proof.
  intros Hca Hra Hg base.
  rewrite project_retirement_savings_cases, Hca, Hra, Hg. fold base.
  split; [| split].
  - intros e He.
    destruct (float_pow (libm_pow gw) base (ra - ca)) as [e0 | growth] eqn:Hpow;
      [| discriminate He].
    unfold result_of in He. simpl in He. injection He as <-.
    destruct (float_pow_error_class _ _ _ _ Hpow) as [Hc | [Hc [Hz Hneg]]].
    + left. exact Hc.
    + right. split; [exact Hc |]. split; [exact Hz | lia].
  - intros Hz Hneg Hsmall.
    rewrite (float_pow_zero_base_negative _ _ _ Hz) by (lia || exact Hsmall).
    reflexivity.
  - intros growth ->. reflexivity.
Qed.

(** X8.  When the retirement age equals the current age the adjusted goal
    is the savings goal, whatever the inflation rate: zero years, and a power
    of exponent 0. *)
Theorem projection_at_retirement_age (gw : Gateways) (self : Bot) (age : Z) (g : float) :
  current_age (retirement_plan self) = Some age ->
  retirement_age (retirement_plan self) = Some age ->
  savings_goal (retirement_plan self) = Some g ->
  exists p,
    project_retirement_savings gw self = (Return p, self, inflation_log gw) /\
    years_to_retirement p = 0%Z /\
    adjusted_goal p = g.
Proof.
  intros Hca Hra Hg. rewrite project_retirement_savings_cases, Hca, Hra, Hg.
  rewrite Z.sub_diag, float_pow_zero_exponent. eexists. split; [reflexivity |].
  split; [reflexivity |]. apply float_mul_one.
Qed.

(** X9.  The projection reads three entries of the plan.  Two bots whose
    plans agree on [current_age], [retirement_age] and [savings_goal] get the
    same result and the same effects: [current_savings] and
    [monthly_contribution] have no influence. *)
Theorem projection_ignores_savings_and_contribution (gw : Gateways) (s1 s2 : Bot) :
  current_age (retirement_plan s1) = current_age (retirement_plan s2) ->
  retirement_age (retirement_plan s1) = retirement_age (retirement_plan s2) ->
  savings_goal (retirement_plan s1) = savings_goal (retirement_plan s2) ->
  result_of (project_retirement_savings gw s1)
  = result_of (project_retirement_savings gw s2) /\
  log_of (project_retirement_savings gw s1) = log_of (project_retirement_savings gw s2).
Proof.
  intros Hca Hra Hg. rewrite !project_retirement_savings_cases, Hca, Hra, Hg.
  split; reflexivity.
Qed.

(** X10.  When the inflation request gives no rate, the projection goes on
    with the rate 0: it reports [inflation_rate = 0] and an adjusted goal
    equal to the savings goal, whatever the two ages, and the only trace of
    the failure is the one [st.error] notice of the fetch.  The one way out
    is an age difference of [2^53] or more, beyond what a number input
    holds, that is too large to be converted to a float: then the power
    raises [OverflowError]. *)
Theorem projection_without_rate_keeps_goal
    (gw : Gateways) (self : Bot) (ca ra : Z) (g : float) :
  current_age (retirement_plan self) = Some ca ->
  retirement_age (retirement_plan self) = Some ra ->
  savings_goal (retirement_plan self) = Some g ->
  fetched_rate gw = None ->
  exists msg,
    (exists p,
       project_retirement_savings gw self
       = (Return p, self, [EvRequestsGet (inflation_url gw); EvStError msg]) /\
       inflation_rate p = 0%float /\
       years_to_retirement p = (ra - ca)%Z /\
       adjusted_goal p = g) \/
    ((2 ^ 53 <= Z.abs (ra - ca))%Z /\
     project_retirement_savings gw self
     = (Raise (OverflowError "int too large to convert to float"), self,
        [EvRequestsGet (inflation_url gw); EvStError msg])).
Proof.
  intros Hca Hra Hg Hnone.
  assert (Hlog : exists msg,
            inflation_log gw = [EvRequestsGet (inflation_url gw); EvStError msg]).
  { unfold inflation_log. unfold fetched_rate in Hnone.
    destruct (alpha_vantage gw (inflation_url gw)); [eauto | eauto | discriminate]. }
  destruct Hlog as [msg Hlog]. exists msg. rewrite <- Hlog.
  destruct (Z.lt_ge_cases (Z.abs (ra - ca)) (2 ^ 53)) as [Hsmall | Hlarge].
  - left.
    assert (Hzero : (or_zero (fetched_rate gw) =? 0)%float = true)
      by (rewrite Hnone; reflexivity).
    rewrite (project_retirement_savings_base_one gw self ca ra g Hca Hra Hg Hsmall Hzero).
    eexists. split; [reflexivity |]. split; [reflexivity |]. split; reflexivity.
  - rewrite project_retirement_savings_cases, Hca, Hra, Hg, Hnone.
    change (1 + or_zero None / 100)%float with 1%float.
    destruct (int_to_float (ra - ca)) as [e | iw] eqn:Hconv.
    + right. split; [exact Hlarge |].
      unfold float_pow. rewrite Hconv.
      unfold int_to_float in Hconv.
      destruct (is_infinity (float_of_Z (ra - ca))); [| discriminate Hconv].
      injection Hconv as <-. reflexivity.
    + left. rewrite (float_pow_base_one _ _ _ Hconv), float_mul_one.
      eexists. split; [reflexivity |]. split; [reflexivity |]. split; reflexivity.
Qed.

(** X11.  Whether it returns or raises, [project_retirement_savings] leaves
    the bot as it was, and its only effects are those of the inflation
    fetch. *)
Theorem projection_leaves_bot_unchanged (gw : Gateways) (self : Bot) :
  state_of (project_retirement_savings gw self) = self /\
  log_of (project_retirement_savings gw self) = inflation_log gw.
Proof. rewrite project_retirement_savings_cases. split; reflexivity. Qed.

(** ** The stock suggestions, in every case *)

(** X13.  [suggest_stocks] never raises and never changes the bot.  It
    returns [None] exactly when the fetch of some ticker of the list ends the
    loop: the request raises, or the quote has a price and lacks one of the
    other four fields. *)
Theorem suggest_stocks_never_raises
    (gw : Gateways) (investment_amount : float) (years : Z) (self : Bot) :
  state_of (suggest_stocks gw investment_amount years self) = self /\
  exists r,
    result_of (suggest_stocks gw investment_amount years self) = Return r /\
    (r = None <-> exists t, List.In t stock_tickers /\ quote_aborts gw t).
Proof.
  rewrite suggest_stocks_run.
  pose proof (fetch_quotes_state gw stock_tickers [] self) as Hstate.
  destruct (aborts_or_not gw stock_tickers) as [Hok | [t [e [Hin Hv]]]].
  - rewrite (fetch_quotes_ok gw stock_tickers Hok stock_tickers_NoDup) by (intros t _ []).
    split; [reflexivity |]. eexists. split; [reflexivity |].
    split; [discriminate |].
    intros [t [Hin Hab]]. apply quote_aborts_verdict in Hab. destruct Hab as [e He].
    exfalso. exact (Hok t e Hin He).
  - destruct (fetch_quotes_abort gw _ t e Hin Hv [] self) as [e' [l Hr]].
    rewrite Hr. split; [reflexivity |]. eexists. split; [reflexivity |].
    split; [| reflexivity]. intros _. exists t. split; [exact Hin |].
    apply quote_aborts_verdict. eauto.
Qed.

Lemma fetch_quotes_first_abort (gw : Gateways) (pre : list string) :
  forall (t : string) (post : list string) (e : exn) sd self,
    (forall t0, List.In t0 pre -> ~ quote_aborts gw t0) ->
    verdict_of gw t = Aborted e ->
    fetch_quotes gw (pre ++ t :: post) sd self
    = (Raise e, self, map EvTickerInfo (pre ++ [t])).
Proof.
  induction pre as [| t0 pre IH]; intros t post e sd self Hpre Hv.
  - simpl app. rewrite fetch_quotes_step, Hv. reflexivity.
  - simpl app. rewrite fetch_quotes_step.
    assert (Hpre' : forall t1, List.In t1 pre -> ~ quote_aborts gw t1)
      by (intros t1 Hin; apply Hpre; right; exact Hin).
    destruct (verdict_of gw t0) as [| row | e0] eqn:Hv0.
    + rewrite (IH t post e sd self Hpre' Hv). reflexivity.
    + rewrite (IH t post e _ self Hpre' Hv). reflexivity.
    + exfalso. apply (Hpre t0 (or_introl eq_refl)).
      apply quote_aborts_verdict. eauto.
Qed.

(** X14.  The loop of [suggest_stocks] stops at the first ticker whose fetch
    fails: the tickers before it are fetched, the tickers after it are not,
    and the exception of that ticker is the one reported through [st.error]
    before [None] is returned. *)
Theorem fetch_stops_at_first_failure
    (gw : Gateways) (investment_amount : float) (years : Z) (self : Bot)
    (pre post : list string) (t : string) (e : exn) :
  stock_tickers = pre ++ t :: post ->
  (forall t0, List.In t0 pre -> ~ quote_aborts gw t0) ->
  verdict_of gw t = Aborted e ->
  suggest_stocks gw investment_amount years self
  = (Return None, self,
     map EvTickerInfo (pre ++ [t])
       ++ [EvStError ("Error fetching stock data: " ++ exn_str e)]).
Proof.
  intros Hsplit Hpre Hv. rewrite suggest_stocks_run, Hsplit.
  rewrite (fetch_quotes_first_abort gw pre t post e [] self Hpre Hv). reflexivity.
Qed.

(** X16.  A quoted price that compares equal to 0 counts as no price: the
    test [if price:] is false for it, and the ticker is not in the returned
    table, complete as its quote may be. *)
Theorem zero_price_is_omitted
    (gw : Gateways) (investment_amount : float) (years : Z) (self : Bot)
    (rows : list SuggestionRow) (t : string) (info : gmap string pyval) (price : float) :
  result_of (suggest_stocks gw investment_amount years self) = Return (Some rows) ->
  yf_info gw t = inr info ->
  info !! "currentPrice" = Some (PyFloat price) ->
  (price =? 0)%float = true ->
  ~ List.In t (map Ticker rows).
Proof.
  intros Hres Hinfo Hprice Hzero Hin.
  destruct (suggest_stocks_rows _ _ _ _ _ Hres) as [_ ->].
  unfold with_suggested in Hin. rewrite List.map_map in Hin.
  apply List.in_map_iff in Hin. destruct Hin as [[t0 row] [Ht Hin]]. simpl in Ht. subst t0.
  apply kept_rows_In, verdict_Kept_inv in Hin.
  destruct Hin as [info0 [Hinfo0 [Htruthy _]]].
  rewrite Hinfo in Hinfo0. injection Hinfo0 as <-.
  unfold dict_get in Htruthy. rewrite Hprice in Htruthy. simpl in Htruthy.
  rewrite Hzero in Htruthy. discriminate Htruthy.
Qed.

(** ** One more expense, one category touched *)

(** X21.  [add_expense] never fails and has no outside effect.  In the
    summary taken after it, the total of the category of the new expense is
    the sum of the amounts that category had, in their order, followed by
    the new amount (the new amount alone when the category is new), and
    every other category has the row it had before. *)
Theorem add_expense_touches_one_category
    (gw : Gateways) (self : Bot) (date category : string) (amount : float) :
  let after := state_of (add_expense date category amount self) in
  add_expense date category amount self = (Return tt, after, []) /\
  retirement_plan after = retirement_plan self /\
  exists before_rows after_rows,
    result_of (get_expense_summary gw self) = Return before_rows /\
    result_of (get_expense_summary gw after) = Return after_rows /\
    List.In (category,
             group_sum gw (category_values category (expenses self) ++ [amount]))
            after_rows /\
    (forall c t, c <> category ->
       (List.In (c, t) after_rows <-> List.In (c, t) before_rows)).
Proof.
  intros after. subst after.
  split; [reflexivity |]. split; [reflexivity |].
  do 2 eexists. split; [reflexivity |]. split; [reflexivity |].
  change (result_of (get_expense_summary gw self))
    with (Return (groupby_sum (group_sum gw) (expenses self))).
  simpl. split.
  - apply groupby_sum_In. split.
    + rewrite List.map_app, List.in_app_iff. right. left. reflexivity.
    + rewrite category_values_snoc. simpl. rewrite String.eqb_refl. reflexivity.
  - intros c t Hne. rewrite !groupby_sum_In, category_values_snoc. simpl.
    destruct (String.eqb_spec category c) as [E | _]; [congruence |].
    rewrite List.map_app, List.in_app_iff. simpl. intuition congruence.
Qed.

(** * Properties of the script *)

(** ** The expense page *)

(** X17.  Every run of the script starts with a new bot.  On the expense
    page a run without a submitted form writes ["No expenses recorded yet."]
    and asks for no summary; a run with a submitted form records that one
    expense and shows a summary of one row, the category and the amount just
    entered.  No run shows an expense of an earlier run. *)
Theorem expense_page_shows_this_run_only
    (str_float : float -> string) (gw : Gateways) (w : Widgets) :
  menu w = "Expense Tracker" ->
  script str_float gw w =
  if expense_submitted (expense_form w)
  then (Return tt,
        {| expenses := [ {| Date := expense_date (expense_form w);
                            Category := expense_category (expense_form w);
                            Amount := expense_amount (expense_form w) |} ];
           retirement_plan := retirement_plan init |},
        page_top ++
        [ Display (StHeader "Expense Tracker");
          Display (StSuccess ("Added: " ++ expense_category (expense_form w) ++ " - $"
                                ++ str_float (expense_amount (expense_form w)) ++ " on "
                                ++ expense_date (expense_form w)));
          Display (StWrite "### Expense Summary");
          Display (StDataframeSummary
                     [ (expense_category (expense_form w),
                        group_sum gw [expense_amount (expense_form w)]) ]) ])
  else (Return tt, init,
        page_top ++
        [ Display (StHeader "Expense Tracker");
          Display (StWrite "No expenses recorded yet.") ]).
Proof.
  intros Hmenu. unfold script. rewrite Hmenu.
  destruct (expense_submitted (expense_form w)) eqn:Hsub.
  - unfold script_bind, show, expense_tracker_page. simpl. rewrite Hsub. reflexivity.
  - unfold script_bind, show, expense_tracker_page. simpl. rewrite Hsub. reflexivity.
Qed.

(** ** The retirement page *)

Opaque project_retirement_savings suggest_stocks generate_financial_advice.

Lemma retirement_page_submitted
    (str_float : float -> string) (gw : Gateways) (w : Widgets) :
  menu w = "Retirement Planner" ->
  plan_submitted (plan_form w) = true ->
  let f := plan_form w in
  let bot :=
    state_of (set_retirement_plan (Some (form_current_age f)) (Some (form_retirement_age f))
                (Some (form_current_savings f)) (Some (form_monthly_contribution f))
                (Some (form_savings_goal f)) init) in
  let rate := or_zero (fetched_rate gw) in
  let years := (form_retirement_age f - form_current_age f)%Z in
  script str_float gw w =
  match float_pow (libm_pow gw) (1 + rate / 100)%float years with
  | inl e =>
      (Raise e, bot,
       page_top ++
       [ Display (StHeader "Retirement Planner");
         Display (StSuccess "Retirement plan updated!") ]
       ++ map Effect (inflation_log gw))
  | inr growth =>
      (Return tt, bot,
       page_top ++
       [ Display (StHeader "Retirement Planner");
         Display (StSuccess "Retirement plan updated!") ]
       ++ map Effect (inflation_log gw) ++
       [ Display (StWrite ("### Adjusted Savings Goal with Inflation ("
                             ++ format_2f rate ++ "%):"));
         Display (StWrite ("$" ++ format_2f (form_savings_goal f * growth)%float)) ])
  end.
Proof.
  intros Hmenu Hsub f bot rate years. subst f bot rate years.
  unfold script, retirement_planner_page. rewrite Hmenu, Hsub.
  unfold script_bind, show, call, the_bot, script_ret. simpl.
  rewrite project_retirement_savings_cases. simpl.
  destruct (float_pow _ _ _); simpl; reflexivity.
Qed.

(** X18.  The retirement page asks for a projection only when the plan is
    set, and a run sets the whole plan or nothing.  So a run without a
    submitted form makes no request and shows nothing below the header, and
    the [TypeError] of an unset plan cannot occur: a run of this page can
    end with an exception only after a submitted form, and only with one of
    the power, the [ZeroDivisionError] of a growth factor of zero (a rate of
    -100) with a retirement age below the current age, or the
    [OverflowError] of a power out of range. *)
Theorem retirement_page_never_TypeError
    (str_float : float -> string) (gw : Gateways) (w : Widgets) :
  menu w = "Retirement Planner" ->
  (plan_submitted (plan_form w) = false ->
   script str_float gw w
   = (Return tt, init, page_top ++ [Display (StHeader "Retirement Planner")])) /\
  (forall e, script_result (script str_float gw w) = Raise e ->
     plan_submitted (plan_form w) = true /\
     exn_class e <> "TypeError" /\
     (exn_class e = "OverflowError" \/
      (e = ZeroDivisionError "0.0 cannot be raised to a negative power" /\
       (form_retirement_age (plan_form w) < form_current_age (plan_form w))%Z /\
       (1 + or_zero (fetched_rate gw) / 100 =? 0)%float = true))).
Proof.
  intros Hmenu.
  assert (Hidle : plan_submitted (plan_form w) = false ->
            script str_float gw w
            = (Return tt, init, page_top ++ [Display (StHeader "Retirement Planner")])).
  { intros Hsub. unfold script, retirement_planner_page. rewrite Hmenu, Hsub.
    reflexivity. }
  split; [exact Hidle |].
  intros e Hraise. destruct (plan_submitted (plan_form w)) eqn:Hsub.
  - rewrite (retirement_page_submitted str_float gw w Hmenu Hsub) in Hraise.
    cbv zeta in Hraise.
    destruct (float_pow _ _ _) as [e0 | growth] eqn:Hpow; [| discriminate Hraise].
    unfold script_result in Hraise. simpl in Hraise. injection Hraise as <-.
    split; [reflexivity |].
    destruct (float_pow_error _ _ _ _ Hpow)
      as [[_ Hc] | [[Hz [Hneg ->]] | [iw [_ [_ [_ ->]]]]]].
    + split; [rewrite Hc; discriminate | left; exact Hc].
    + split; [discriminate |]. right. split; [reflexivity |]. split; [lia | exact Hz].
    + split; [discriminate | left; reflexivity].
  - rewrite (Hidle eq_refl) in Hraise. discriminate Hraise.
Qed.

(** ** The stock page *)

Lemma suggest_stocks_outcome
    (gw : Gateways) (investment_amount : float) (years : Z) (self : Bot) :
  (exists rows,
     suggest_stocks gw investment_amount years self
     = (Return (Some rows), self, map EvTickerInfo stock_tickers) /\
     forall t, List.In t stock_tickers -> ~ quote_aborts gw t) \/
  (exists l t,
     suggest_stocks gw investment_amount years self = (Return None, self, l) /\
     List.In t stock_tickers /\ quote_aborts gw t).
Proof.
  rewrite suggest_stocks_run.
  destruct (aborts_or_not gw stock_tickers) as [Hok | [t [e [Hin Hv]]]].
  - left. rewrite (fetch_quotes_ok gw stock_tickers Hok stock_tickers_NoDup)
      by (intros t _ []).
    eexists. split; [reflexivity |].
    intros t Hin Hab. apply quote_aborts_verdict in Hab. destruct Hab as [e He].
    exact (Hok t e Hin He).
  - right. destruct (fetch_quotes_abort gw _ t e Hin Hv [] self) as [e' [l Hr]].
    rewrite Hr. do 2 eexists. split; [reflexivity |]. split; [exact Hin |].
    apply quote_aborts_verdict. eauto.
Qed.

(** X19.  A run of the stock page never ends with an exception and leaves
    the bot new.  Without a submitted form it fetches nothing.  It shows a
    table exactly when the form was submitted and no fetch ended the loop;
    after a failed fetch the page shows the notice of the failure and no
    table. *)
Theorem stock_page_never_raises
    (str_float : float -> string) (gw : Gateways) (w : Widgets) :
  menu w = "Stock Suggestions" ->
  exists out,
    script str_float gw w = (Return tt, init, out) /\
    (stock_submitted (stock_form w) = false ->
     out = page_top ++ [Display (StHeader "Stock Suggestions")]) /\
    ((exists rows, List.In (Display (StDataframeStocks rows)) out) <->
     stock_submitted (stock_form w) = true /\
     forall t, List.In t stock_tickers -> ~ quote_aborts gw t).
Proof.
  intros Hmenu. unfold script, stock_suggestions_page. rewrite Hmenu.
  destruct (stock_submitted (stock_form w)) eqn:Hsub.
  - unfold script_bind, show, call, script_ret. simpl.
    destruct (suggest_stocks_outcome gw (form_investment_amount (stock_form w))
                (form_years (stock_form w)) init)
      as [[rows [-> Hok]] | [l [t [-> [Hin Hab]]]]]; simpl.
    + eexists. split; [reflexivity |]. split; [discriminate |].
      split; [intros _; split; [reflexivity | exact Hok] |].
      intros _. exists rows. do 9 right. left. reflexivity.
    + eexists. split; [reflexivity |]. split; [discriminate |].
      split.
      * intros [rows Hrows]. exfalso.
        destruct Hrows as [H | [H | [H | H]]]; try discriminate H.
        rewrite List.app_nil_r in H. apply List.in_map_iff in H.
        destruct H as [ev [H _]]. discriminate H.
      * intros [_ Hok]. exfalso. exact (Hok t Hin Hab).
  - eexists. split; [reflexivity |]. split; [reflexivity |].
    split.
    + intros [rows Hrows]. exfalso. simpl in Hrows.
      destruct Hrows as [H | [H | [H | []]]]; discriminate H.
    + intros [H _]. discriminate H.
Qed.

(** ** The advice page *)

(** X20.  The advice page does not catch what the chat-completion call
    raises.  Without a click the run makes no request.  After a click, a
    failing call ends the run with the exception of the call, after the
    header and the two requests and before anything is written; a call that
    answers is followed by ["### Advice:"] and the content of the first
    choice as it came. *)
Theorem advice_page_failure_escapes
    (str_float : float -> string) (gw : Gateways) (w : Widgets) :
  menu w = "Ask Financial Advice" ->
  let messages := advice_messages (fetched_rate gw) (user_prompt (advice_form w)) in
  let requests := map Effect (inflation_log gw ++ [EvChatCompletion "gpt-4" messages]) in
  (advice_clicked (advice_form w) = false ->
   script str_float gw w
   = (Return tt, init, page_top ++ [Display (StHeader "Financial Advice")])) /\
  (advice_clicked (advice_form w) = true ->
   forall e, chat_completion gw "gpt-4" messages = inl e ->
     script str_float gw w
     = (Raise e, init, page_top ++ [Display (StHeader "Financial Advice")] ++ requests)) /\
  (advice_clicked (advice_form w) = true ->
   forall response c rest,
     chat_completion gw "gpt-4" messages = inr response ->
     choices response = c :: rest ->
     script str_float gw w
     = (Return tt, init,
        page_top ++ [Display (StHeader "Financial Advice")] ++ requests
        ++ [Display (StWrite "### Advice:");
            Display (StWrite (content (choice_message c)))])).
Proof.
  intros Hmenu messages requests. unfold script, advice_page. rewrite Hmenu.
  split; [intros ->; reflexivity |].
  split.
  - intros -> e Hfail.
    unfold script_bind, show, call, script_ret. simpl.
    rewrite generate_financial_advice_run. cbv zeta. fold messages.
    rewrite Hfail. reflexivity.
  - intros -> response c rest Hreply Hchoices.
    unfold script_bind, show, call, script_ret. simpl.
    rewrite generate_financial_advice_run. cbv zeta. fold messages.
    rewrite Hreply, Hchoices. reflexivity.
Qed.

Transparent project_retirement_savings suggest_stocks generate_financial_advice.

(** * The further properties at concrete inputs *)

Lemma summary_categories_independent_of_entry_order_witness :
  exists summary1 summary2,
    result_of (get_expense_summary gw_down (state_of (add_all sample_calls init)))
    = Return summary1 /\
    result_of (get_expense_summary gw_down
                 (state_of (add_all
                    [ ("2024-01-03", "Rent", 1200%float);
                      ("2024-01-01", "Groceries", 50%float);
                      ("2024-01-02", "Groceries", 30%float) ] init)))
    = Return summary2 /\
    map fst summary1 = map fst summary2 /\
    (forall c t1 t2,
       List.In (c, t1) summary1 -> List.In (c, t2) summary2 ->
       List.filter (fun call => String.eqb (snd (fst call)) c) sample_calls
       = List.filter (fun call => String.eqb (snd (fst call)) c)
           [ ("2024-01-03", "Rent", 1200%float);
             ("2024-01-01", "Groceries", 50%float);
             ("2024-01-02", "Groceries", 30%float) ] ->
       t1 = t2).
Proof.
  apply (summary_categories_independent_of_entry_order gw_down sample_calls
           [ ("2024-01-03", "Rent", 1200%float);
             ("2024-01-01", "Groceries", 50%float);
             ("2024-01-02", "Groceries", 30%float) ]).
  unfold sample_calls.
  apply Permutation_sym.
  apply (Permutation_cons_app [_; _] [] _). reflexivity.
Defined.

Example summary_reversed_sample :
  result_of (get_expense_summary gw_down (state_of (add_all sample_calls_reversed init)))
  = Return [("Groceries", 80%float); ("Rent", 1200%float)].
Proof. vm_compute. reflexivity. Qed.

(** Inside a category the order of entry shows: 0.01, 0.03 and 0.03 add up
    to 0.07000000000000001, and 0.03, 0.03 and 0.01 to 0.06999999999999999,
    with either way of summing a group. *)
Example order_inside_a_category_shows :
  forall gw, List.In gw [gw_rate 3; gw_down] ->
    result_of (get_expense_summary gw
                 (state_of (add_all [ ("d1", "A", 0.01%float); ("d2", "A", 0.03%float);
                                      ("d3", "A", 0.03%float) ] init)))
    = Return [("A", 0.07000000000000001%float)] /\
    result_of (get_expense_summary gw
                 (state_of (add_all [ ("d2", "A", 0.03%float); ("d3", "A", 0.03%float);
                                      ("d1", "A", 0.01%float) ] init)))
    = Return [("A", 0.06999999999999999%float)].
Proof. intros gw [<- | [<- | []]]; split; vm_compute; reflexivity. Qed.

Lemma projection_fails_only_in_the_power_witness :
  project_retirement_savings (gw_rate (-100)) (bot_with_ages 65 30)
  = (Raise (ZeroDivisionError "0.0 cannot be raised to a negative power"),
     bot_with_ages 65 30, inflation_log (gw_rate (-100))).
Proof.
  apply (proj1 (proj2 (projection_fails_only_in_the_power (gw_rate (-100))
                         (bot_with_ages 65 30) 65 30 1000000 eq_refl eq_refl eq_refl)));
    reflexivity.
Defined.

Example projection_with_past_retirement_age :
  exists p,
    result_of (project_retirement_savings (gw_rate 100) (bot_with_ages 65 63)) = Return p /\
    years_to_retirement p = (-2)%Z /\ adjusted_goal p = 250000%float.
Proof. eexists. split; [vm_compute; reflexivity |]. split; reflexivity. Qed.

Lemma projection_at_retirement_age_witness :
  exists p,
    project_retirement_savings (gw_rate 3) (bot_with_ages 40 40)
    = (Return p, bot_with_ages 40 40, inflation_log (gw_rate 3)) /\
    years_to_retirement p = 0%Z /\
    adjusted_goal p = 1000000%float.
Proof.
  apply (projection_at_retirement_age (gw_rate 3) (bot_with_ages 40 40) 40 1000000);
    reflexivity.
Defined.

Lemma projection_ignores_savings_and_contribution_witness :
  result_of (project_retirement_savings (gw_rate 3) (bot_with_ages 30 65))
  = result_of (project_retirement_savings (gw_rate 3)
                 (state_of (set_retirement_plan (Some 30%Z) (Some 65%Z) None (Some 0%float)
                              (Some 1000000%float) init))) /\
  log_of (project_retirement_savings (gw_rate 3) (bot_with_ages 30 65))
  = log_of (project_retirement_savings (gw_rate 3)
              (state_of (set_retirement_plan (Some 30%Z) (Some 65%Z) None (Some 0%float)
                           (Some 1000000%float) init))).
Proof.
  apply (projection_ignores_savings_and_contribution (gw_rate 3)); reflexivity.
Defined.

Lemma projection_without_rate_keeps_goal_witness :
  exists msg p,
    project_retirement_savings gw_down (bot_with_ages 30 65)
    = (Return p, bot_with_ages 30 65,
       [EvRequestsGet (inflation_url gw_down); EvStError msg]) /\
    inflation_rate p = 0%float /\
    years_to_retirement p = (65 - 30)%Z /\
    adjusted_goal p = 1000000%float.
Proof.
  destruct (projection_without_rate_keeps_goal gw_down (bot_with_ages 30 65) 30 65 1000000
              eq_refl eq_refl eq_refl eq_refl) as [msg [Hgoal | [Hlarge _]]].
  - exists msg. exact Hgoal.
  - exfalso. vm_compute in Hlarge. apply Hlarge. reflexivity.
Defined.

Lemma gw_no_cap_complete_quote (t : string) :
  List.In t ["AAPL"; "MSFT"; "GOOGL"] -> ~ quote_aborts gw_no_cap t.
Proof.
  simpl. intros [<- | [<- | [<- | []]]]; intros [_ Hmissing]; apply Hmissing;
    unfold has_other_fields; repeat split; eexists; vm_compute; reflexivity.
Defined.

Lemma fetch_stops_at_first_failure_witness :
  suggest_stocks gw_no_cap 1000 10 init
  = (Return None, init,
     map EvTickerInfo (["AAPL"; "MSFT"; "GOOGL"] ++ ["AMZN"])
       ++ [EvStError ("Error fetching stock data: " ++ exn_str (KeyError "marketCap"))]).
Proof.
  apply (fetch_stops_at_first_failure gw_no_cap 1000 10 init
           ["AAPL"; "MSFT"; "GOOGL"] ["TSLA"] "AMZN" (KeyError "marketCap")).
  - reflexivity.
  - exact gw_no_cap_complete_quote.
  - vm_compute. reflexivity.
Defined.

(** Three of the five tickers get 200 each of the 1000 to invest: 400 are
    handed to no one. *)
Example three_of_five_get_600 :
  sum_amounts (map Suggested_Investment rows_down) = 600%float.
Proof. vm_compute. reflexivity. Qed.

Lemma zero_price_is_omitted_witness :
  ~ List.In "TSLA" (map Ticker rows_zero_price).
Proof.
  apply (zero_price_is_omitted gw_zero_price 1000 10 init rows_zero_price
           "TSLA" (quote "TSLA" 0) 0).
  - vm_compute. reflexivity.
  - reflexivity.
  - vm_compute. reflexivity.
  - reflexivity.
Defined.

Example zero_price_sample :
  map Ticker rows_zero_price = ["AAPL"; "MSFT"; "GOOGL"; "AMZN"].
Proof. reflexivity. Qed.

Lemma expense_page_shows_this_run_only_witness :
  script format_2f gw_down (widgets_expense "2024-01-03" "Rent" 1200)
  = (Return tt,
     {| expenses := [ {| Date := "2024-01-03"; Category := "Rent"; Amount := 1200 |} ];
        retirement_plan := retirement_plan init |},
     page_top ++
     [ Display (StHeader "Expense Tracker");
       Display (StSuccess ("Added: " ++ "Rent" ++ " - $" ++ format_2f 1200 ++ " on "
                             ++ "2024-01-03"));
       Display (StWrite "### Expense Summary");
       Display (StDataframeSummary [ ("Rent", group_sum gw_down [1200%float]) ]) ]).
Proof.
  apply (expense_page_shows_this_run_only format_2f gw_down
           (widgets_expense "2024-01-03" "Rent" 1200)).
  reflexivity.
Defined.

Example expense_page_sample :
  script_output (script format_2f gw_down (widgets_expense "2024-01-03" "Rent" 1200))
  = page_top ++
    [ Display (StHeader "Expense Tracker");
      Display (StSuccess "Added: Rent - $1200.00 on 2024-01-03");
      Display (StWrite "### Expense Summary");
      Display (StDataframeSummary [ ("Rent", 1200%float) ]) ].
Proof. vm_compute. reflexivity. Qed.

Lemma retirement_page_never_TypeError_witness :
  script format_2f gw_down (widgets_on "Retirement Planner")
  = (Return tt, init, page_top ++ [Display (StHeader "Retirement Planner")]).
Proof.
  apply (proj1 (retirement_page_never_TypeError format_2f gw_down
                  (widgets_on "Retirement Planner") eq_refl)).
  reflexivity.
Defined.

Example retirement_page_sample :
  script format_2f (gw_rate 3) (widgets_plan 30 65 1000000)
  = (Return tt, bot_with_ages 30 65,
     page_top ++
     [ Display (StHeader "Retirement Planner");
       Display (StSuccess "Retirement plan updated!");
       Effect (EvRequestsGet "https://www.alphavantage.co/query?function=INFLATION&apikey=demo");
       Display (StWrite "### Adjusted Savings Goal with Inflation (3.00%):");
       Display (StWrite "$2813862.45") ]).
Proof. vm_compute. reflexivity. Qed.

(** Three hundred years at 1000 percent, on the page: the run ends with the
    [OverflowError] of the power, after the plan was set. *)
Example retirement_page_overflow :
  script_result (script format_2f (gw_rate 1000) (widgets_plan 0 300 1000000))
  = Raise (OverflowError "(34, 'Numerical result out of range')").
Proof. vm_compute. reflexivity. Qed.

Lemma stock_page_never_raises_witness :
  exists out,
    script format_2f gw_no_cap (widgets_stocks 1000 10) = (Return tt, init, out) /\
    (stock_submitted (stock_form (widgets_stocks 1000 10)) = false ->
     out = page_top ++ [Display (StHeader "Stock Suggestions")]) /\
    ((exists rows, List.In (Display (StDataframeStocks rows)) out) <->
     stock_submitted (stock_form (widgets_stocks 1000 10)) = true /\
     forall t, List.In t stock_tickers -> ~ quote_aborts gw_no_cap t).
Proof.
  apply (stock_page_never_raises format_2f gw_no_cap (widgets_stocks 1000 10)).
  reflexivity.
Defined.

Example stock_page_failure_sample :
  script format_2f gw_no_cap (widgets_stocks 1000 10)
  = (Return tt, init,
     page_top ++
     [ Display (StHeader "Stock Suggestions");
       Effect (EvTickerInfo "AAPL"); Effect (EvTickerInfo "MSFT");
       Effect (EvTickerInfo "GOOGL"); Effect (EvTickerInfo "AMZN");
       Effect (EvStError "Error fetching stock data: 'marketCap'") ]).
Proof. vm_compute. reflexivity. Qed.

Lemma advice_page_failure_escapes_witness :
  script format_2f gw_down (widgets_advice "How much should I save?")
  = (Raise (Exn "APIConnectionError" "Error communicating with OpenAI"), init,
     page_top ++ [Display (StHeader "Financial Advice")]
     ++ map Effect
          (inflation_log gw_down
           ++ [EvChatCompletion "gpt-4"
                 (advice_messages (fetched_rate gw_down) "How much should I save?")])).
Proof.
  apply (proj1 (proj2 (advice_page_failure_escapes format_2f gw_down
                         (widgets_advice "How much should I save?") eq_refl))).
  - reflexivity.
  - reflexivity.
Defined.
